(** * pywa-mcp-server: the tool handlers and the server start-up

    A shallow embedding of [src/server.py], [src/tools/__init__.py],
    [src/tools/messaging.py], [src/tools/interactive.py] and
    [src/tools/templates.py].

    Every tool handler of the repository is a Python function of the shape
    [try: ... wa_client.method(...) ... return {...} except Exception as e:
    return {"success": False, "error": str(e)}].  The handlers are embedded
    in a small monad that threads the list of transport calls and the log,
    and that carries a raised exception until a [try]/[except] catches it. *)

From stdpp Require Import gmap strings list fin_maps pretty.
From Stdlib Require Import ZArith PrimFloat.

Set Warnings "-register-all".
Local Open Scope string_scope.

(** ** Python values *)

(** A Python object as far as the handlers look at it: [bool(o)], [str(o)],
    [type(o).__name__], [getattr(o, name, default)] and iteration
    ([py_iter o = None] for an object that is not iterable).  [bool] and
    [str] are taken to return. *)
Inductive PyObject := MkPyObject {
  py_bool : bool;
  py_str : string;
  py_type : string;
  py_attrs : gmap string PyObject;
  py_iter : option (list PyObject) }.

(** The values the handlers put into their result dictionaries and receive
    as JSON arguments.  [VObj o] is an object handed through from the
    transport. *)
Inductive PyVal :=
| VNone
| VBool (b : bool)
| VInt (n : Z)
| VStr (s : string)
| VObj (o : PyObject)
| VList (l : list PyVal)
| VDict (d : gmap string PyVal).

(** Python's [None] as the transport returns it. *)
Definition py_None : PyObject :=
  MkPyObject false "None" "NoneType" ∅ None.

(** A Python [str] as the transport returns it.  Iterating it yields its
    characters, each a string of length one; the iteration of these
    characters is not unfolded, since no handler iterates what an iteration
    yields. *)
Definition py_of_str (s : string) : PyObject :=
  MkPyObject (negb (String.eqb s "")) s "str" ∅
    (Some ((λ c, MkPyObject true (String c "") "str" ∅ None)
             <$> String.list_ascii_of_string s)).

(** [len(s)] of a string; a string is the list of its characters. *)
Definition len (s : string) : nat := String.length s.

(** [s and len(s) > n] for an [Optional[str]]: [None] and the empty string
    are falsy. *)
Definition and_len_gt (s : option string) (n : nat) : bool :=
  match s with
  | None => false
  | Some s => negb (String.eqb s "") && bool_decide (n < len s)
  end.

(** ** Exceptions *)

(** The class of an exception.  [ValueError], [TypeError] and
    [OtherException name] are subclasses of [Exception]; [KeyboardInterrupt],
    [SystemExit] and [OtherBaseException name] (for instance
    [asyncio.CancelledError]) derive from [BaseException] only. *)
Inductive ExcClass :=
| ValueError
| TypeError
| OtherException (name : string)
| KeyboardInterrupt
| SystemExit
| OtherBaseException (name : string).

(** An exception instance; [exc_str] is [str(e)]. *)
Record PyExc := MkPyExc { exc_class : ExcClass; exc_str : string }.

(** [isinstance(e, Exception)] *)
Definition is_exception (e : PyExc) : bool :=
  match exc_class e with
  | ValueError | TypeError | OtherException _ => true
  | KeyboardInterrupt | SystemExit | OtherBaseException _ => false
  end.

(** ** The pywa types the handlers build *)

Record Button := MkButton { btn_title : string; btn_callback_data : string }.

Record SectionRow := MkSectionRow {
  row_title : string;
  row_callback_data : string;
  row_description : option string }.

Record Section := MkSection { sec_title : string; sec_rows : list SectionRow }.

Record SectionList := MkSectionList {
  sl_button_title : string;
  sl_sections : list Section }.

(** [Contact(name=Contact.Name(formatted_name=..), phones=[Contact.Phone(phone=..)])] *)
Record ContactName := MkContactName { formatted_name : string }.
Record ContactPhone := MkContactPhone { phone : string }.
Record Contact := MkContact { ct_name : ContactName; ct_phones : list ContactPhone }.

(** The [buttons] keyword of [WhatsApp.send_message] takes a list of
    [Button]s or a [SectionList]. *)
Inductive ButtonsArg :=
| ButtonObjects (bs : list Button)
| ListObject (sl : SectionList).

(** ** The transport: the methods of the [WhatsApp] client

    One constructor per method the handlers call, with the keyword
    arguments they pass; a keyword that a handler does not pass is [None]
    in an [option] of the call. *)
Inductive Call :=
| wa_send_message (to text : string) (header footer : option string)
    (buttons : option ButtonsArg) (preview_url : option bool)
    (reply_to_message_id : option string)
| wa_send_image (to image : string) (caption footer reply_to_message_id : option string)
| wa_send_video (to video : string) (caption footer reply_to_message_id : option string)
| wa_send_document (to document : string)
    (filename caption footer reply_to_message_id : option string)
| wa_send_audio (to audio : string) (reply_to_message_id : option string)
| wa_send_sticker (to sticker : string) (reply_to_message_id : option string)
| wa_send_location (to : string) (latitude longitude : float)
    (name address reply_to_message_id : option string)
| wa_request_location (to text : string) (reply_to_message_id : option string)
| wa_send_contact (to : string) (contact : Contact) (reply_to_message_id : option string)
| wa_send_reaction (to emoji message_id : string) (sender : option string)
| wa_remove_reaction (to message_id : string) (sender : option string)
| wa_mark_message_as_read (message_id : string) (sender : option string)
| wa_indicate_typing (message_id : string) (sender : option string)
| wa_upload_media (media : string) (mime_type : option string)
| wa_send_template (to name language : string) (params : list (gmap string PyVal))
    (reply_to_message_id : option string)
| wa_get_templates (limit : Z) (name : option string).

(** What a call of the transport does: it returns an object or raises. *)
Inductive Outcome :=
| Returns (result : PyObject)
| Raises (e : PyExc).

Definition Transport := Call → Outcome.

(** ** The handler monad *)

Inductive Level := INFO | ERROR.

(** What a handler leaves behind: the transport calls it made and the
    records it logged, oldest first. *)
Record World := MkWorld { calls : list Call; logged : list (Level * string) }.

Definition world0 : World := MkWorld [] [].

Inductive Res (A : Type) :=
| Ok (a : A)
| Raise (e : PyExc).
Arguments Ok {A} a.
Arguments Raise {A} e.

Definition M (A : Type) : Type := Transport → World → Res A * World.

#[global] Instance M_ret : MRet M := λ A a _ w, (Ok a, w).

#[global] Instance M_bind : MBind M := λ A B k m tr w,
  match m tr w with
  | (Ok a, w') => k a tr w'
  | (Raise e, w') => (Raise e, w')
  end.

(** [raise e] *)
Definition raise {A} (e : PyExc) : M A := λ _ w, (Raise e, w).

(** [wa_client.method(...)] *)
Definition call (c : Call) : M PyObject := λ tr w,
  let w' := MkWorld (calls w ++ [c]) (logged w) in
  match tr c with
  | Returns r => (Ok r, w')
  | Raises e => (Raise e, w')
  end.

(** [logger.info(msg)] and [logger.error(msg)] *)
Definition logger (lvl : Level) (msg : string) : M unit := λ _ w,
  (Ok tt, MkWorld (calls w) (logged w ++ [(lvl, msg)])).

(** [try: body except Exception as e: handler(e)]: the clause catches the
    instances of [Exception]; any other exception leaves the [try]. *)
Definition try_except {A} (body : M A) (handler : PyExc → M A) : M A := λ tr w,
  match body tr w with
  | (Ok a, w') => (Ok a, w')
  | (Raise e, w') => if is_exception e then handler e tr w' else (Raise e, w')
  end.

(** Running a handler against a transport, from the empty world. *)
Definition run {A} (m : M A) (tr : Transport) : Res A * World := m tr world0.

(** ** Result dictionaries *)

Abbreviation Envelope := (gmap string PyVal).

(** [{"success": False, "error": msg}] *)
Definition failure (msg : string) : Envelope :=
  {[ "success" := VBool false; "error" := VStr msg ]}.

(** [getattr(o, name, default)] *)
Definition getattr (o : PyObject) (name : string) (default : PyVal) : PyVal :=
  match py_attrs o !! name with
  | Some v => VObj v
  | None => default
  end.

(** [getattr(result, 'id', str(result)) if result else None] *)
Definition extract_message_id (result : PyObject) : PyVal :=
  if py_bool result then getattr result "id" (VStr (py_str result)) else VNone.

(** [str(result) if result else None] *)
Definition result_data_of (result : PyObject) : PyVal :=
  if py_bool result then VStr (py_str result) else VNone.

(** The [except Exception as e] clause every handler ends with:
    [logger.error(f"{what}: {str(e)}")] and the failure dictionary. *)
Definition on_exception (what : string) (e : PyExc) : M Envelope :=
  logger ERROR (what +:+ ": " +:+ exc_str e) ;;
  mret (failure (exc_str e)).

(** ** [src/tools/interactive.py] *)

(** The [for btn in buttons] loop of [send_message_with_buttons]: [inl] is
    the dictionary of an early [return], [inr] the finished
    [button_objects]. *)
Fixpoint convert_buttons (buttons : list (gmap string string))
    (button_objects : list Button) : Envelope + list Button :=
  match buttons with
  | [] => inr button_objects
  | btn :: rest =>
    match btn !! "id", btn !! "title" with
    | Some id, Some title =>
      if bool_decide (20 < len title) then
        inl (failure ("Button title '" +:+ title +:+ "' exceeds 20 characters"))
      else if bool_decide (256 < len id) then
        inl (failure ("Button ID '" +:+ id +:+ "' exceeds 256 characters"))
      else convert_buttons rest (button_objects ++ [MkButton title id])
    | _, _ => inl (failure "Each button must have 'id' and 'title' keys")
    end
  end.

Definition send_message_with_buttons (to text : string)
    (buttons : list (gmap string string)) (header footer : option string)
    (reply_to_message_id : option string) : M Envelope :=
  try_except
    (if bool_decide (3 < length buttons) then
       mret (failure "Maximum 3 buttons allowed")
     else if and_len_gt header 60 then
       mret (failure "Header text must be max 60 characters")
     else if and_len_gt footer 60 then
       mret (failure "Footer text must be max 60 characters")
     else
       match convert_buttons buttons [] with
       | inl early => mret early
       | inr button_objects =>
         result ← call (wa_send_message to text header footer
                          (Some (ButtonObjects button_objects)) None
                          reply_to_message_id) ;
         logger INFO ("Message with buttons sent to " +:+ to) ;;
         let message_id := extract_message_id result in
         mret ({[ "success" := VBool true; "message_id" := message_id ]} : Envelope)
       end)
    (on_exception "Failed to send message with buttons").

(** A section dictionary of the [sections] argument, restricted to the two
    keys the handler reads and typed as the docstring documents them: an
    optional ['title'] string and an optional ['rows'] array of row
    dictionaries with string values.  [None] is an absent key.  The
    annotation [List[Dict[str, Any]]] admits more: a payload with a value
    of another type (a [null] description, a number as title) makes [len]
    or [in] raise a [TypeError] inside the [try]; such payloads are outside
    this type, and what is proved of the list handler is proved of payloads
    of the documented shape. *)
Record SectionData := MkSectionData {
  sd_title : option string;
  sd_rows : option (list (gmap string string)) }.

(** The inner [for row_data in section_data["rows"]] loop. *)
Fixpoint convert_rows (rows_data : list (gmap string string))
    (rows : list SectionRow) : Envelope + list SectionRow :=
  match rows_data with
  | [] => inr rows
  | row_data :: rest =>
    match row_data !! "id", row_data !! "title" with
    | Some id, Some title =>
      if bool_decide (200 < len id) then
        inl (failure ("Row ID '" +:+ id +:+ "' exceeds 200 characters"))
      else if bool_decide (24 < len title) then
        inl (failure ("Row title '" +:+ title +:+ "' exceeds 24 characters"))
      else
        let description := default "" (row_data !! "description") in
        if bool_decide (72 < len description) then
          inl (failure ("Row description '" +:+ description +:+ "' exceeds 72 characters"))
        else
          convert_rows rest
            (rows ++ [MkSectionRow title id
                        (if String.eqb description "" then None else Some description)])
    | _, _ => inl (failure "Each row must have 'id' and 'title' keys")
    end
  end.

(** The outer [for section_data in sections] loop. *)
Fixpoint convert_sections (sections : list SectionData)
    (section_objects : list Section) : Envelope + list Section :=
  match sections with
  | [] => inr section_objects
  | section_data :: rest =>
    match sd_rows section_data with
    | None => inl (failure "Each section must have a 'rows' array")
    | Some rows_data =>
      let section_title := default "" (sd_title section_data) in
      if bool_decide (24 < len section_title) then
        inl (failure ("Section title '" +:+ section_title +:+ "' exceeds 24 characters"))
      else
        match convert_rows rows_data [] with
        | inl early => inl early
        | inr rows =>
          convert_sections rest
            (match rows with
             | [] => section_objects
             | _ :: _ => section_objects ++ [MkSection section_title rows]
             end)
        end
    end
  end.

(** [sum(len(section.get("rows", [])) for section in sections)] *)
Definition total_row_count (sections : list SectionData) : nat :=
  sum_list ((λ section, length (default [] (sd_rows section))) <$> sections).

Definition send_message_with_list (to text button_text : string)
    (sections : list SectionData) (header footer : option string)
    (reply_to_message_id : option string) : M Envelope :=
  try_except
    (if bool_decide (10 < length sections) then
       mret (failure "Maximum 10 sections allowed")
     else if bool_decide (20 < len button_text) then
       mret (failure "Button text must be max 20 characters")
     else if and_len_gt header 60 then
       mret (failure "Header text must be max 60 characters")
     else if and_len_gt footer 60 then
       mret (failure "Footer text must be max 60 characters")
     else if bool_decide (10 < total_row_count sections) then
       mret (failure "Maximum 10 rows total across all sections")
     else
       match convert_sections sections [] with
       | inl early => mret early
       | inr section_objects =>
         let section_list := MkSectionList button_text section_objects in
         result ← call (wa_send_message to text header footer
                          (Some (ListObject section_list)) None
                          reply_to_message_id) ;
         logger INFO ("Message with list sent to " +:+ to) ;;
         let message_id := extract_message_id result in
         mret ({[ "success" := VBool true; "message_id" := message_id ]} : Envelope)
       end)
    (on_exception "Failed to send message with list").

(** ** [src/tools/messaging.py] *)

Definition send_message (to text : string) (header footer : option string)
    (preview_url : bool) (reply_to_message_id : option string) : M Envelope :=
  try_except
    (result ← call (wa_send_message to text header footer None
                      (Some preview_url) reply_to_message_id) ;
     logger INFO ("Message sent to " +:+ to) ;;
     let message_id := extract_message_id result in
     mret ({[ "success" := VBool true; "message_id" := message_id;
              "to" := VStr to ]} : Envelope))
    (on_exception "Failed to send message").

Definition send_image (to image : string)
    (caption footer reply_to_message_id : option string) : M Envelope :=
  try_except
    (result ← call (wa_send_image to image caption footer reply_to_message_id) ;
     logger INFO ("Image sent to " +:+ to) ;;
     let message_id := extract_message_id result in
     mret ({[ "success" := VBool true; "message_id" := message_id ]} : Envelope))
    (on_exception "Failed to send image").

Definition send_video (to video : string)
    (caption footer reply_to_message_id : option string) : M Envelope :=
  try_except
    (result ← call (wa_send_video to video caption footer reply_to_message_id) ;
     logger INFO ("Video sent to " +:+ to) ;;
     let message_id := extract_message_id result in
     mret ({[ "success" := VBool true; "message_id" := message_id ]} : Envelope))
    (on_exception "Failed to send video").

Definition send_document (to document : string)
    (filename caption footer reply_to_message_id : option string) : M Envelope :=
  try_except
    (result ← call (wa_send_document to document filename caption footer
                      reply_to_message_id) ;
     logger INFO ("Document sent to " +:+ to) ;;
     let message_id := extract_message_id result in
     mret ({[ "success" := VBool true; "message_id" := message_id ]} : Envelope))
    (on_exception "Failed to send document").

Definition send_audio (to audio : string)
    (reply_to_message_id : option string) : M Envelope :=
  try_except
    (result ← call (wa_send_audio to audio reply_to_message_id) ;
     logger INFO ("Audio sent to " +:+ to) ;;
     let message_id := extract_message_id result in
     mret ({[ "success" := VBool true; "message_id" := message_id ]} : Envelope))
    (on_exception "Failed to send audio").

Definition send_sticker (to sticker : string)
    (reply_to_message_id : option string) : M Envelope :=
  try_except
    (result ← call (wa_send_sticker to sticker reply_to_message_id) ;
     logger INFO ("Sticker sent to " +:+ to) ;;
     let message_id := extract_message_id result in
     mret ({[ "success" := VBool true; "message_id" := message_id ]} : Envelope))
    (on_exception "Failed to send sticker").

Definition send_location (to : string) (latitude longitude : float)
    (name address reply_to_message_id : option string) : M Envelope :=
  try_except
    (result ← call (wa_send_location to latitude longitude name address
                      reply_to_message_id) ;
     logger INFO ("Location sent to " +:+ to) ;;
     let message_id := extract_message_id result in
     mret ({[ "success" := VBool true; "message_id" := message_id ]} : Envelope))
    (on_exception "Failed to send location").

Definition request_location (to text : string)
    (reply_to_message_id : option string) : M Envelope :=
  try_except
    (result ← call (wa_request_location to text reply_to_message_id) ;
     logger INFO ("Location request sent to " +:+ to) ;;
     let message_id := extract_message_id result in
     mret ({[ "success" := VBool true; "message_id" := message_id ]} : Envelope))
    (on_exception "Failed to request location").

Definition send_contact (to contact_name contact_phone : string)
    (reply_to_message_id : option string) : M Envelope :=
  try_except
    (let contact :=
       MkContact (MkContactName contact_name) [MkContactPhone contact_phone] in
     result ← call (wa_send_contact to contact reply_to_message_id) ;
     logger INFO ("Contact sent to " +:+ to) ;;
     let message_id := extract_message_id result in
     mret ({[ "success" := VBool true; "message_id" := message_id ]} : Envelope))
    (on_exception "Failed to send contact").

Definition send_reaction (to emoji message_id : string)
    (sender : option string) : M Envelope :=
  try_except
    (result ← call (wa_send_reaction to emoji message_id sender) ;
     logger INFO ("Reaction sent to message " +:+ message_id) ;;
     let result_data := result_data_of result in
     mret ({[ "success" := VBool true; "result" := result_data ]} : Envelope))
    (on_exception "Failed to send reaction").

Definition remove_reaction (to message_id : string)
    (sender : option string) : M Envelope :=
  try_except
    (result ← call (wa_remove_reaction to message_id sender) ;
     logger INFO ("Reaction removed from message " +:+ message_id) ;;
     let result_data := result_data_of result in
     mret ({[ "success" := VBool true; "result" := result_data ]} : Envelope))
    (on_exception "Failed to remove reaction").

Definition mark_message_as_read (message_id : string)
    (sender : option string) : M Envelope :=
  try_except
    (result ← call (wa_mark_message_as_read message_id sender) ;
     logger INFO ("Message " +:+ message_id +:+ " marked as read") ;;
     let result_data := result_data_of result in
     mret ({[ "success" := VBool true; "result" := result_data ]} : Envelope))
    (on_exception "Failed to mark message as read").

Definition indicate_typing (message_id : string)
    (sender : option string) : M Envelope :=
  try_except
    (result ← call (wa_indicate_typing message_id sender) ;
     logger INFO ("Typing indicator shown for message " +:+ message_id) ;;
     let success_status := getattr result "success" (VBool (py_bool result)) in
     mret ({[ "success" := VBool true; "typing_indicated" := success_status;
              "message_id" := VStr message_id ]} : Envelope))
    (on_exception "Failed to indicate typing").

Definition upload_media (media_path : string)
    (mime_type : option string) : M Envelope :=
  try_except
    (media_obj ← call (wa_upload_media media_path mime_type) ;
     logger INFO "Media uploaded successfully" ;;
     mret ({[ "success" := VBool true; "media_id" := VStr (py_str media_obj);
              "media_type" := VStr (py_type media_obj) ]} : Envelope))
    (on_exception "Failed to upload media").

(** ** [src/tools/templates.py] *)

(** [params or []] *)
Definition params_or_empty (params : option (list (gmap string PyVal))) :
    list (gmap string PyVal) :=
  match params with
  | Some (p :: ps) => p :: ps
  | _ => []
  end.

Definition send_template (to name language : string)
    (params : option (list (gmap string PyVal)))
    (reply_to_message_id : option string) : M Envelope :=
  try_except
    (result ← call (wa_send_template to name language (params_or_empty params)
                      reply_to_message_id) ;
     logger INFO ("Template '" +:+ name +:+ "' sent to " +:+ to) ;;
     let message_id := extract_message_id result in
     mret ({[ "success" := VBool true; "message_id" := message_id;
              "template" := VStr name; "to" := VStr to ]} : Envelope))
    (on_exception "Failed to send template").

(** The dictionary [template_data] built for one template. *)
Definition template_data (template : PyObject) : PyVal :=
  VDict {[ "id" := getattr template "id" (VStr "");
           "name" := getattr template "name" (VStr "");
           "language" := getattr template "language" (VStr "");
           "status" := getattr template "status" (VStr "");
           "category" := getattr template "category" (VStr "") ]}.

(** [for template in templates]: iterating an object that is not iterable
    raises [TypeError]. *)
Definition iterate (o : PyObject) : M (list PyObject) :=
  match py_iter o with
  | Some items => mret items
  | None => raise (MkPyExc TypeError ("'" +:+ py_type o +:+ "' object is not iterable"))
  end.

Definition get_templates (limit : Z) (name : option string) : M Envelope :=
  try_except
    (templates ← call (wa_get_templates limit name) ;
     items ← iterate templates ;
     let template_list := template_data <$> items in
     logger INFO ("Retrieved " +:+ pretty (length template_list) +:+ " templates") ;;
     mret ({[ "success" := VBool true; "templates" := VList template_list;
              "count" := VInt (Z.of_nat (length template_list)) ]} : Envelope))
    (on_exception "Failed to get templates").

(** ** The tools as the host invokes them

    A tool call names one of the eighteen registered functions and gives
    its arguments; an argument with a default other than [None] is an
    [option] here, [None] standing for an omitted argument. *)
Inductive ToolCall :=
| call_send_message (to text : string) (header footer : option string)
    (preview_url : option bool) (reply_to_message_id : option string)
| call_send_image (to image : string) (caption footer reply_to_message_id : option string)
| call_send_video (to video : string) (caption footer reply_to_message_id : option string)
| call_send_document (to document : string)
    (filename caption footer reply_to_message_id : option string)
| call_send_audio (to audio : string) (reply_to_message_id : option string)
| call_send_sticker (to sticker : string) (reply_to_message_id : option string)
| call_send_location (to : string) (latitude longitude : float)
    (name address reply_to_message_id : option string)
| call_request_location (to text : string) (reply_to_message_id : option string)
| call_send_contact (to contact_name contact_phone : string)
    (reply_to_message_id : option string)
| call_send_reaction (to emoji message_id : string) (sender : option string)
| call_remove_reaction (to message_id : string) (sender : option string)
| call_mark_message_as_read (message_id : string) (sender : option string)
| call_indicate_typing (message_id : string) (sender : option string)
| call_upload_media (media_path : string) (mime_type : option string)
| call_send_message_with_buttons (to text : string)
    (buttons : list (gmap string string)) (header footer : option string)
    (reply_to_message_id : option string)
| call_send_message_with_list (to text button_text : string)
    (sections : list SectionData) (header footer : option string)
    (reply_to_message_id : option string)
| call_send_template (to name : string) (language : option string)
    (params : option (list (gmap string PyVal)))
    (reply_to_message_id : option string)
| call_get_templates (limit : option Z) (name : option string).

(** The name a tool is registered under: the name of its function. *)
Definition tool_name (t : ToolCall) : string :=
  match t with
  | call_send_message _ _ _ _ _ _ => "send_message"
  | call_send_image _ _ _ _ _ => "send_image"
  | call_send_video _ _ _ _ _ => "send_video"
  | call_send_document _ _ _ _ _ _ => "send_document"
  | call_send_audio _ _ _ => "send_audio"
  | call_send_sticker _ _ _ => "send_sticker"
  | call_send_location _ _ _ _ _ _ => "send_location"
  | call_request_location _ _ _ => "request_location"
  | call_send_contact _ _ _ _ => "send_contact"
  | call_send_reaction _ _ _ _ => "send_reaction"
  | call_remove_reaction _ _ _ => "remove_reaction"
  | call_mark_message_as_read _ _ => "mark_message_as_read"
  | call_indicate_typing _ _ => "indicate_typing"
  | call_upload_media _ _ => "upload_media"
  | call_send_message_with_buttons _ _ _ _ _ _ => "send_message_with_buttons"
  | call_send_message_with_list _ _ _ _ _ _ _ => "send_message_with_list"
  | call_send_template _ _ _ _ _ => "send_template"
  | call_get_templates _ _ => "get_templates"
  end.

(** Invoking a tool runs its handler, with the defaults of the signature
    filled in. *)
Definition invoke (t : ToolCall) : M Envelope :=
  match t with
  | call_send_message to text header footer preview_url reply =>
    send_message to text header footer (default false preview_url) reply
  | call_send_image to image caption footer reply =>
    send_image to image caption footer reply
  | call_send_video to video caption footer reply =>
    send_video to video caption footer reply
  | call_send_document to document filename caption footer reply =>
    send_document to document filename caption footer reply
  | call_send_audio to audio reply => send_audio to audio reply
  | call_send_sticker to sticker reply => send_sticker to sticker reply
  | call_send_location to latitude longitude name address reply =>
    send_location to latitude longitude name address reply
  | call_request_location to text reply => request_location to text reply
  | call_send_contact to contact_name contact_phone reply =>
    send_contact to contact_name contact_phone reply
  | call_send_reaction to emoji message_id sender =>
    send_reaction to emoji message_id sender
  | call_remove_reaction to message_id sender => remove_reaction to message_id sender
  | call_mark_message_as_read message_id sender => mark_message_as_read message_id sender
  | call_indicate_typing message_id sender => indicate_typing message_id sender
  | call_upload_media media_path mime_type => upload_media media_path mime_type
  | call_send_message_with_buttons to text buttons header footer reply =>
    send_message_with_buttons to text buttons header footer reply
  | call_send_message_with_list to text button_text sections header footer reply =>
    send_message_with_list to text button_text sections header footer reply
  | call_send_template to name language params reply =>
    send_template to name (default "en" language) params reply
  | call_get_templates limit name => get_templates (default 100%Z limit) name
  end.

(** ** [src/tools/__init__.py] and [src/server.py] *)

(** The client object [WhatsApp(phone_id=.., token=..)]. *)
Record WhatsApp := MkWhatsApp { wa_phone_id : string; wa_token : string }.

(** The state of the server module: the global [wa_client], the tools
    registered on [mcp] (each name with the client its function closes
    over, in registration order) and the log. *)
Record Server := MkServer {
  wa_client : option WhatsApp;
  mcp_tools : list (string * WhatsApp);
  server_log : list (Level * string) }.

Definition server0 : Server := MkServer None [] [].

Definition server_logger (lvl : Level) (msg : string) (st : Server) : Server :=
  MkServer (wa_client st) (mcp_tools st) (server_log st ++ [(lvl, msg)]).

(** A decorator [@mcp.tool()] on a function that closes over [client]. *)
Definition mcp_tool (name : string) (client : WhatsApp) (st : Server) : Server :=
  MkServer (wa_client st) (mcp_tools st ++ [(name, client)]) (server_log st).

Definition register_messaging_tools (client : WhatsApp) (st : Server) : Server :=
  foldl (λ st name, mcp_tool name client st) st
    ["send_message"; "send_image"; "send_video"; "send_document"; "send_audio";
     "send_sticker"; "send_location"; "request_location"; "send_contact";
     "send_reaction"; "remove_reaction"; "mark_message_as_read";
     "indicate_typing"; "upload_media"].

Definition register_interactive_tools (client : WhatsApp) (st : Server) : Server :=
  foldl (λ st name, mcp_tool name client st) st
    ["send_message_with_buttons"; "send_message_with_list"].

Definition register_template_tools (client : WhatsApp) (st : Server) : Server :=
  foldl (λ st name, mcp_tool name client st) st
    ["send_template"; "get_templates"].

Definition register_all_tools (client : WhatsApp) (st : Server) : Server :=
  register_template_tools client
    (register_interactive_tools client
       (register_messaging_tools client st)).

(** [os.getenv]; the environment is the one [load_dotenv()] leaves. *)
Definition getenv (environ : gmap string string) (name : string) : option string :=
  environ !! name.

(** [not v] for the result of [os.getenv]. *)
Definition not_ (v : option string) : bool :=
  match v with
  | None => true
  | Some s => String.eqb s ""
  end.

Definition get_whatsapp_client (environ : gmap string string) (st : Server) :
    Res WhatsApp * Server :=
  match wa_client st with
  | Some client => (Ok client, st)
  | None =>
    let phone_id := getenv environ "WHATSAPP_PHONE_ID" in
    let token := getenv environ "WHATSAPP_TOKEN" in
    if not_ phone_id || not_ token then
      (Raise (MkPyExc ValueError
                "Missing required environment variables: WHATSAPP_PHONE_ID and WHATSAPP_TOKEN"),
       st)
    else
      let client := MkWhatsApp (default "" phone_id) (default "" token) in
      let st := MkServer (Some client) (mcp_tools st) (server_log st) in
      (Ok client, server_logger INFO "WhatsApp client initialized" st)
  end.

(** The module-level [try: ... except ValueError as e: ...] that runs when
    the server module is loaded.  An exception of another class would
    leave the block. *)
Definition startup (environ : gmap string string) (st : Server) : Res unit * Server :=
  match get_whatsapp_client environ st with
  | (Ok client, st) =>
    let st := server_logger INFO "WhatsApp client configuration validated" st in
    let st := register_all_tools client st in
    (Ok tt, server_logger INFO "All tools registered successfully" st)
  | (Raise e, st) =>
    match exc_class e with
    | ValueError =>
      let st := server_logger ERROR ("Configuration error: " +:+ exc_str e) st in
      (Ok tt,
       server_logger ERROR
         "Please set WHATSAPP_PHONE_ID and WHATSAPP_TOKEN environment variables" st)
    | _ => (Raise e, st)
    end
  end.

(** The names of the eighteen tools, in registration order. *)
Definition all_tool_names : list string :=
  ["send_message"; "send_image"; "send_video"; "send_document"; "send_audio";
   "send_sticker"; "send_location"; "request_location"; "send_contact";
   "send_reaction"; "remove_reaction"; "mark_message_as_read";
   "indicate_typing"; "upload_media"; "send_message_with_buttons";
   "send_message_with_list"; "send_template"; "get_templates"].

(** * The vocabulary of the properties

    The predicates, the checks in the words of the specification and the
    concrete inputs that the statements below are written with. *)

(** A success envelope contains [success: true]. *)
Definition is_success (env : Envelope) : Prop :=
  env !! "success" = Some (VBool true).

(** A failure envelope contains [success: false] and a string [error]. *)
Definition is_failure (env : Envelope) : Prop :=
  env !! "success" = Some (VBool false) ∧ ∃ msg, env !! "error" = Some (VStr msg).

(** A failure envelope whose [error] is a non-empty string. *)
Definition is_failure_nonempty (env : Envelope) : Prop :=
  env !! "success" = Some (VBool false) ∧
  ∃ msg, env !! "error" = Some (VStr msg) ∧ msg ≠ "".

(** The contract of the envelope as the specification words it: the call
    returns a dictionary, and the dictionary is a success envelope or a
    failure envelope with a non-empty error. *)
Definition envelope_contract (t : ToolCall) (tr : Transport) : Prop :=
  ∃ env w, run (invoke t) tr = (Ok env, w) ∧
           (is_success env ∨ is_failure_nonempty env).

(** A transport that raises on every call. *)
Definition raising (e : PyExc) : Transport := λ _, Raises e.

(** A transport that returns the same object on every call. *)
Definition returning (r : PyObject) : Transport := λ _, Returns r.

(** The result of a validation step that returned early: a failure
    dictionary with a non-empty message. *)
Definition rejection (env : Envelope) : Prop :=
  ∃ msg, env = failure msg ∧ msg ≠ "".

(** A list of checks in a fixed order, each with whether it is violated and
    the message it fails with; the first violated one decides. *)
Fixpoint first_violated (checks : list (bool * string)) : option string :=
  match checks with
  | [] => None
  | (violated, msg) :: rest => if violated then Some msg else first_violated rest
  end.

(** An optional text that is present and longer than [n]. *)
Definition longer_than (n : nat) (s : option string) : bool :=
  match s with
  | Some s => bool_decide (n < len s)
  | None => false
  end.

(** The three checks on one button, in the order of the specification:
    a missing key, a title longer than 20, an id longer than 256. *)
Definition button_checks (btn : gmap string string) : list (bool * string) :=
  let id := default "" (btn !! "id") in
  let title := default "" (btn !! "title") in
  [ (bool_decide (btn !! "id" = None ∨ btn !! "title" = None),
     "Each button must have 'id' and 'title' keys");
    (bool_decide (20 < len title),
     "Button title '" +:+ title +:+ "' exceeds 20 characters");
    (bool_decide (256 < len id),
     "Button ID '" +:+ id +:+ "' exceeds 256 characters") ].

(** The checks on a button message, in the order of the specification. *)
Definition button_message_checks (buttons : list (gmap string string))
    (header footer : option string) : list (bool * string) :=
  [ (bool_decide (3 < length buttons), "Maximum 3 buttons allowed");
    (longer_than 60 header, "Header text must be max 60 characters");
    (longer_than 60 footer, "Footer text must be max 60 characters") ]
  ++ concat (button_checks <$> buttons).

(** The normalized button of a button dictionary: the title, and the id as
    callback data. *)
Definition normalize_button (btn : gmap string string) : Button :=
  MkButton (default "" (btn !! "title")) (default "" (btn !! "id")).

(** What the handler does with a transport call [c] it built: one call,
    and then one log record and the success dictionary [k result], or one
    log record and the failure dictionary of an instance of [Exception], or
    nothing more when another exception leaves the handler. *)
Definition send_and_wrap (tr : Transport) (c : Call) (ok_msg err_msg : string)
    (k : PyObject → Envelope) : Res Envelope * World :=
  match tr c with
  | Returns result => (Ok (k result), MkWorld [c] [(INFO, ok_msg)])
  | Raises e =>
    if is_exception e then
      (Ok (failure (exc_str e)),
       MkWorld [c] [(ERROR, err_msg +:+ ": " +:+ exc_str e)])
    else (Raise e, MkWorld [c] [])
  end.

(** A button dictionary with both keys and both values within their
    limits. *)
Definition well_formed_button (btn : gmap string string) : Prop :=
  ∃ id title, btn !! "id" = Some id ∧ btn !! "title" = Some title ∧
              (len title ≤ 20)%nat ∧ (len id ≤ 256)%nat.

(** An optional text that is at most [n] characters long when present. *)
Definition within (n : nat) (s : option string) : Prop :=
  match s with
  | Some s => (len s ≤ n)%nat
  | None => True
  end.

(** A button dictionary and the button object made of it: the id is the
    callback data and the title is the title. *)
Definition button_of (btn : gmap string string) (b : Button) : Prop :=
  btn !! "id" = Some (btn_callback_data b) ∧ btn !! "title" = Some (btn_title b).

(** The two-button payload of the concrete scenario. *)
Definition yes_no_buttons : list (gmap string string) :=
  [ {[ "id" := "o1"; "title" := "Yes" ]}; {[ "id" := "o2"; "title" := "No" ]} ].

(** A result object of the transport with an [id] attribute. *)
Definition sent_message (id : string) : PyObject :=
  MkPyObject true ("SentMessage(id='" +:+ id +:+ "')") "SentMessage"
    {[ "id" := py_of_str id ]} None.

(** The row object of a row dictionary: the title, the id as callback
    data, and the description, [None] when it is absent or empty. *)
Definition normalize_row (row_data : gmap string string) : SectionRow :=
  MkSectionRow (default "" (row_data !! "title")) (default "" (row_data !! "id"))
    (match row_data !! "description" with
     | Some (String c d) => Some (String c d)
     | _ => None
     end).

(** The section object of a section dictionary, [None] for a section
    without rows. *)
Definition normalize_section (section_data : SectionData) : option Section :=
  match default [] (sd_rows section_data) with
  | [] => None
  | row_data :: rest =>
    Some (MkSection (default "" (sd_title section_data))
            (normalize_row <$> row_data :: rest))
  end.

(** The section list of a transport call, when it carries one. *)
Definition section_list_of (c : Call) : option SectionList :=
  match c with
  | wa_send_message _ _ _ _ (Some (ListObject sl)) _ _ => Some sl
  | _ => None
  end.

(** A row dictionary with both keys and all three values within their
    limits; an absent description counts as the empty string. *)
Definition well_formed_row (row_data : gmap string string) : Prop :=
  ∃ id title, row_data !! "id" = Some id ∧ row_data !! "title" = Some title ∧
              (len id ≤ 200)%nat ∧ (len title ≤ 24)%nat ∧
              (len (default "" (row_data !! "description")) ≤ 72)%nat.

(** A row dictionary without a description. *)
Definition plain_row : gmap string string := {[ "id" := "r1"; "title" := "T" ]}.

(** A payload with eleven raw rows: a section without a ['rows'] key and a
    section with an over-long title whose eleven rows have no keys. *)
Definition eleven_bad_rows : list SectionData :=
  [ MkSectionData (Some "A") None;
    MkSectionData (Some "a section title of more than 24 characters")
      (Some (replicate 11 ∅)) ].

(** The payload of the scenario: a section without rows and a section of
    two rows. *)
Definition one_empty_one_full : list SectionData :=
  [ MkSectionData (Some "Empty") (Some []);
    MkSectionData (Some "Drinks")
      (Some [ {[ "id" := "coke"; "title" := "Coca Cola";
                 "description" := "Cold refreshing drink" ]};
              {[ "id" := "water"; "title" := "Water" ]} ]) ].

(** The handlers that report a message identifier: the ones whose
    docstring promises a dictionary with the message ID. *)
Definition reports_message_id (t : ToolCall) : bool :=
  match t with
  | call_send_message _ _ _ _ _ _
  | call_send_image _ _ _ _ _
  | call_send_video _ _ _ _ _
  | call_send_document _ _ _ _ _ _
  | call_send_audio _ _ _
  | call_send_sticker _ _ _
  | call_send_location _ _ _ _ _ _
  | call_request_location _ _ _
  | call_send_contact _ _ _ _
  | call_send_message_with_buttons _ _ _ _ _ _
  | call_send_message_with_list _ _ _ _ _ _ _
  | call_send_template _ _ _ _ _ => true
  | _ => false
  end.

(** A run that ended in a success dictionary made exactly one transport
    call, the call returned, and the dictionary's [message_id] is the
    identifier extracted from what it returned. *)
Definition reports_extracted_id (tr : Transport) (out : Res Envelope * World) : Prop :=
  ∀ env w, out = (Ok env, w) → is_success env →
  ∃ c result, calls w = [c] ∧ tr c = Returns result ∧
              env !! "message_id" = Some (extract_message_id result).

(** A result object whose own [success] attribute is false. *)
Definition success_result_false : PyObject :=
  MkPyObject true "SuccessResult(success=False)" "SuccessResult"
    {[ "success" := MkPyObject false "False" "bool" ∅ None ]} None.

(** The recipient of a tool call: the [to] argument of a send operation. *)
Definition recipient (t : ToolCall) : option string :=
  match t with
  | call_send_message to _ _ _ _ _
  | call_send_image to _ _ _ _
  | call_send_video to _ _ _ _
  | call_send_document to _ _ _ _ _
  | call_send_audio to _ _
  | call_send_sticker to _ _
  | call_send_location to _ _ _ _ _
  | call_request_location to _ _
  | call_send_contact to _ _ _
  | call_send_reaction to _ _ _
  | call_remove_reaction to _ _
  | call_send_message_with_buttons to _ _ _ _ _
  | call_send_message_with_list to _ _ _ _ _ _
  | call_send_template to _ _ _ _ => Some to
  | call_mark_message_as_read _ _
  | call_indicate_typing _ _
  | call_upload_media _ _
  | call_get_templates _ _ => None
  end.

(** The same tool call to another recipient. *)
Definition with_recipient (to : string) (t : ToolCall) : ToolCall :=
  match t with
  | call_send_message _ text header footer preview_url reply =>
    call_send_message to text header footer preview_url reply
  | call_send_image _ image caption footer reply =>
    call_send_image to image caption footer reply
  | call_send_video _ video caption footer reply =>
    call_send_video to video caption footer reply
  | call_send_document _ document filename caption footer reply =>
    call_send_document to document filename caption footer reply
  | call_send_audio _ audio reply => call_send_audio to audio reply
  | call_send_sticker _ sticker reply => call_send_sticker to sticker reply
  | call_send_location _ latitude longitude name address reply =>
    call_send_location to latitude longitude name address reply
  | call_request_location _ text reply => call_request_location to text reply
  | call_send_contact _ contact_name contact_phone reply =>
    call_send_contact to contact_name contact_phone reply
  | call_send_reaction _ emoji message_id sender =>
    call_send_reaction to emoji message_id sender
  | call_remove_reaction _ message_id sender =>
    call_remove_reaction to message_id sender
  | call_send_message_with_buttons _ text buttons header footer reply =>
    call_send_message_with_buttons to text buttons header footer reply
  | call_send_message_with_list _ text button_text sections header footer reply =>
    call_send_message_with_list to text button_text sections header footer reply
  | call_send_template _ name language params reply =>
    call_send_template to name language params reply
  | call_mark_message_as_read _ _
  | call_indicate_typing _ _
  | call_upload_media _ _
  | call_get_templates _ _ => t
  end.

(** The recipient a transport call is made with. *)
Definition call_recipient (c : Call) : option string :=
  match c with
  | wa_send_message to _ _ _ _ _ _
  | wa_send_image to _ _ _ _
  | wa_send_video to _ _ _ _
  | wa_send_document to _ _ _ _ _
  | wa_send_audio to _ _
  | wa_send_sticker to _ _
  | wa_send_location to _ _ _ _ _
  | wa_request_location to _ _
  | wa_send_contact to _ _
  | wa_send_reaction to _ _ _
  | wa_remove_reaction to _ _
  | wa_send_template to _ _ _ _ => Some to
  | wa_mark_message_as_read _ _
  | wa_indicate_typing _ _
  | wa_upload_media _ _
  | wa_get_templates _ _ => None
  end.

(** The tools that check their payload before they call the transport. *)
Definition validates_payload (t : ToolCall) : bool :=
  match t with
  | call_send_message_with_buttons _ _ _ _ _ _
  | call_send_message_with_list _ _ _ _ _ _ _ => true
  | _ => false
  end.

(** The claim on the empty recipient as the specification words it: a send
    operation to the empty recipient fails without reaching the
    transport. *)
Definition empty_recipient_rejected (t : ToolCall) (tr : Transport) : Prop :=
  recipient t = Some "" →
  ∃ env w, run (invoke t) tr = (Ok env, w) ∧ is_failure env ∧ calls w = [].

(** A credential that is not in the environment. *)
Definition absent (environ : gmap string string) (name : string) : Prop :=
  environ !! name = None.

(** A credential that is in the environment. *)
Definition present (environ : gmap string string) (name : string) : Prop :=
  is_Some (environ !! name).

(** The state after a start-up that built [client] and registered every
    tool on it. *)
Definition started (client : WhatsApp) : Server :=
  MkServer (Some client) ((λ name, (name, client)) <$> all_tool_names)
    [ (INFO, "WhatsApp client initialized");
      (INFO, "WhatsApp client configuration validated");
      (INFO, "All tools registered successfully") ].

(** The state after a start-up that failed on the configuration: no
    client, no tool, and the error in the log. *)
Definition not_configured : Server :=
  MkServer None []
    [ (ERROR, "Configuration error: Missing required environment variables: WHATSAPP_PHONE_ID and WHATSAPP_TOKEN");
      (ERROR, "Please set WHATSAPP_PHONE_ID and WHATSAPP_TOKEN environment variables") ].

(** The second half of the claim as the specification words it: with both
    credentials present in the environment the client is built and all
    tools are registered on it. *)
Definition present_credentials_start (environ : gmap string string) : Prop :=
  present environ "WHATSAPP_PHONE_ID" → present environ "WHATSAPP_TOKEN" →
  ∃ client, startup environ server0 = (Ok tt, started client).

(** An environment in which both variables are set and the phone id is set
    to the empty string. *)
Definition empty_phone_id : gmap string string :=
  {[ "WHATSAPP_PHONE_ID" := ""; "WHATSAPP_TOKEN" := "EAAGtoken" ]}.

(** An environment with both credentials. *)
Definition configured : gmap string string :=
  {[ "WHATSAPP_PHONE_ID" := "1055501234"; "WHATSAPP_TOKEN" := "EAAGtoken" ]}.

(** A four-button payload. *)
Definition four_buttons : list (gmap string string) :=
  [ {[ "id" := "b1"; "title" := "One" ]}; {[ "id" := "b2"; "title" := "Two" ]};
    {[ "id" := "b3"; "title" := "Three" ]}; ∅ ].

(** ** Further vocabulary: how a handler ends *)

(** The one tool that iterates over what the transport returned. *)
Definition iterates_result (t : ToolCall) : bool :=
  match t with
  | call_get_templates _ _ => true
  | _ => false
  end.

(** The five ways a run of a handler ends.  It was rejected by a check
    before any call; its one transport call returned and it reports
    success; its one transport call raised an instance of [Exception],
    which it reports; for a handler that iterates over the result, the call
    returned an object that is not iterable; or its one transport call
    raised an exception that is not an instance of [Exception], which
    leaves the handler. *)
Inductive ending (iterates : bool) (tr : Transport) :
    Res Envelope * World → Prop :=
| ended_rejected msg :
    msg ≠ "" →
    ending iterates tr (Ok (failure msg), world0)
| ended_success c result env info :
    tr c = Returns result →
    (iterates = true → is_Some (py_iter result)) →
    env !! "success" = Some (VBool true) →
    env !! "error" = None →
    ending iterates tr (Ok env, MkWorld [c] [(INFO, info)])
| ended_raised c e what :
    tr c = Raises e →
    is_exception e = true →
    ending iterates tr (Ok (failure (exc_str e)),
                        MkWorld [c] [(ERROR, what +:+ ": " +:+ exc_str e)])
| ended_not_iterable c result what msg :
    iterates = true →
    tr c = Returns result →
    py_iter result = None →
    msg ≠ "" →
    ending iterates tr (Ok (failure msg),
                        MkWorld [c] [(ERROR, what +:+ ": " +:+ msg)])
| ended_propagated c e :
    tr c = Raises e →
    is_exception e = false →
    ending iterates tr (Raise e, MkWorld [c] []).

(** The four checks on one row of a list message, in the order of the
    loop body: a missing key, an id longer than 200, a title longer than
    24, a description longer than 72. *)
Definition row_checks (row_data : gmap string string) : list (bool * string) :=
  let id := default "" (row_data !! "id") in
  let title := default "" (row_data !! "title") in
  let description := default "" (row_data !! "description") in
  [ (bool_decide (row_data !! "id" = None ∨ row_data !! "title" = None),
     "Each row must have 'id' and 'title' keys");
    (bool_decide (200 < len id),
     "Row ID '" +:+ id +:+ "' exceeds 200 characters");
    (bool_decide (24 < len title),
     "Row title '" +:+ title +:+ "' exceeds 24 characters");
    (bool_decide (72 < len description),
     "Row description '" +:+ description +:+ "' exceeds 72 characters") ].

(** The checks on one section: a missing ['rows'] key, a title longer than
    24, then the checks of its rows in order. *)
Definition section_checks (section_data : SectionData) : list (bool * string) :=
  let section_title := default "" (sd_title section_data) in
  [ (bool_decide (sd_rows section_data = None),
     "Each section must have a 'rows' array");
    (bool_decide (24 < len section_title),
     "Section title '" +:+ section_title +:+ "' exceeds 24 characters") ]
  ++ concat (row_checks <$> default [] (sd_rows section_data)).

(** The checks on a list message, in the order the handler makes them. *)
Definition list_message_checks (button_text : string)
    (sections : list SectionData) (header footer : option string) :
    list (bool * string) :=
  [ (bool_decide (10 < length sections), "Maximum 10 sections allowed");
    (bool_decide (20 < len button_text), "Button text must be max 20 characters");
    (longer_than 60 header, "Header text must be max 60 characters");
    (longer_than 60 footer, "Footer text must be max 60 characters");
    (bool_decide (10 < total_row_count sections),
     "Maximum 10 rows total across all sections") ]
  ++ concat (section_checks <$> sections).

(** The raw rows of a payload, section after section. *)
Definition raw_rows (sections : list SectionData) : list (gmap string string) :=
  concat ((λ section_data, default [] (sd_rows section_data)) <$> sections).

(** The rows of a list of section objects, section after section. *)
Definition sent_rows (section_objects : list Section) : list SectionRow :=
  concat (sec_rows <$> section_objects).

(** A section dictionary with a ['rows'] array of well-formed rows and a
    title of at most 24 characters; an absent title counts as empty. *)
Definition well_formed_section (section_data : SectionData) : Prop :=
  (len (default "" (sd_title section_data)) ≤ 24)%nat ∧
  ∃ rows_data, sd_rows section_data = Some rows_data ∧
               Forall well_formed_row rows_data.

(** A button object within the limits of a reply button. *)
Definition button_within_limits (b : Button) : Prop :=
  (len (btn_title b) ≤ 20)%nat ∧ (len (btn_callback_data b) ≤ 256)%nat.

(** A row object within the limits of a list row; a description that is
    there is not empty. *)
Definition row_within_limits (r : SectionRow) : Prop :=
  (len (row_title r) ≤ 24)%nat ∧ (len (row_callback_data r) ≤ 200)%nat ∧
  match row_description r with
  | Some d => (0 < len d ≤ 72)%nat
  | None => True
  end.

(** A section list within the limits of a list message. *)
Definition section_list_within_limits (sl : SectionList) : Prop :=
  (len (sl_button_title sl) ≤ 20)%nat ∧
  (length (sl_sections sl) ≤ 10)%nat ∧
  (length (sent_rows (sl_sections sl)) ≤ 10)%nat ∧
  Forall (λ sec, (len (sec_title sec) ≤ 24)%nat ∧ sec_rows sec ≠ [] ∧
                 Forall row_within_limits (sec_rows sec))
    (sl_sections sl).

(** The button objects of a transport call, when it carries some. *)
Definition button_objects_of (c : Call) : option (list Button) :=
  match c with
  | wa_send_message _ _ _ _ (Some (ButtonObjects bs)) _ _ => Some bs
  | _ => None
  end.

(** The header and the footer of a [send_message] call. *)
Definition header_footer_of (c : Call) : option (option string * option string) :=
  match c with
  | wa_send_message _ _ header footer _ _ _ => Some (header, footer)
  | _ => None
  end.

(** The handlers that report [str(result) if result else None] under the
    key ["result"]. *)
Definition reports_result (t : ToolCall) : bool :=
  match t with
  | call_send_reaction _ _ _ _
  | call_remove_reaction _ _ _
  | call_mark_message_as_read _ _ => true
  | _ => false
  end.

(** The five keys of a projected template. *)
Definition template_keys : gset string :=
  {[ "id"; "name"; "language"; "status"; "category" ]}.

(** One tool call for each registered name. *)
Definition sample_calls : list ToolCall :=
  [ call_send_message "" "" None None None None;
    call_send_image "" "" None None None;
    call_send_video "" "" None None None;
    call_send_document "" "" None None None None;
    call_send_audio "" "" None;
    call_send_sticker "" "" None;
    call_send_location "" 0%float 0%float None None None;
    call_request_location "" "" None;
    call_send_contact "" "" "" None;
    call_send_reaction "" "" "" None;
    call_remove_reaction "" "" None;
    call_mark_message_as_read "" None;
    call_indicate_typing "" None;
    call_upload_media "" None;
    call_send_message_with_buttons "" "" [] None None None;
    call_send_message_with_list "" "" "" [] None None None;
    call_send_template "" "" None None None;
    call_get_templates None None ].

(** The claim on the row total as the specification words it: a payload
    whose raw row total exceeds 10 fails with the too-many-rows error. *)
Definition fails_with_too_many_rows (to text button_text : string)
    (sections : list SectionData) (header footer reply : option string)
    (tr : Transport) : Prop :=
  10 < total_row_count sections →
  ∃ w, run (send_message_with_list to text button_text sections header footer
              reply) tr
       = (Ok (failure "Maximum 10 rows total across all sections"), w).

(** Eleven sections of one valid row each, with short titles. *)
Definition eleven_single_row_sections : list SectionData :=
  replicate 11 (MkSectionData (Some "A") (Some [ {[ "id" := "r1"; "title" := "T" ]} ])).

(** A row dictionary and the row object made of it: the id is the callback
    data, the title is the title, and the description is the description,
    or [None] when it is absent or empty. *)
Definition row_of (row_data : gmap string string) (r : SectionRow) : Prop :=
  row_data !! "id" = Some (row_callback_data r) ∧
  row_data !! "title" = Some (row_title r) ∧
  row_description r = match row_data !! "description" with
                      | Some (String c d) => Some (String c d)
                      | Some EmptyString | None => None
                      end.

(** A section dictionary and the section object made of it: the title is
    the title, the empty string when the dictionary has none, and the rows
    are the rows, one for one and in order. *)
Definition section_of (section_data : SectionData) (sec : Section) : Prop :=
  sec_title sec = default "" (sd_title section_data) ∧
  Forall2 row_of (default [] (sd_rows section_data)) (sec_rows sec).

(** A section dictionary that has at least one row. *)
Definition has_rows (section_data : SectionData) : Prop :=
  default [] (sd_rows section_data) ≠ [].

#[global] Instance has_rows_dec section_data : Decision (has_rows section_data).
Proof. unfold has_rows. apply _. Defined.

(** * Properties *)

(** ** The shapes of a result dictionary *)

Lemma failure_success msg : failure msg !! "success" = Some (VBool false).
Proof. reflexivity. Qed.

Lemma failure_error msg : failure msg !! "error" = Some (VStr msg).
Proof. reflexivity. Qed.

Lemma failure_not_success msg : ¬ is_success (failure msg).
Proof. unfold is_success. rewrite failure_success. discriminate. Qed.

Lemma failure_is_failure msg : is_failure (failure msg).
Proof. split; [apply failure_success | eexists; apply failure_error]. Qed.

Lemma rejection_intro (c : Ascii.ascii) (s : string) : rejection (failure (String c s)).
Proof. eexists; split; [reflexivity | discriminate]. Qed.

#[local] Hint Resolve rejection_intro : core.

Lemma convert_buttons_rejection buttons button_objects env :
  convert_buttons buttons button_objects = inl env → rejection env.
Proof.
  revert button_objects.
  induction buttons as [|btn rest IH]; intros acc; cbn [convert_buttons]; [discriminate|].
  destruct (btn !! "id") as [id|], (btn !! "title") as [title|];
    repeat case_bool_decide; try (intros [= <-]; by apply rejection_intro).
  apply IH.
Qed.

Lemma convert_rows_rejection rows_data rows env :
  convert_rows rows_data rows = inl env → rejection env.
Proof.
  revert rows.
  induction rows_data as [|row_data rest IH]; intros acc; cbn [convert_rows]; [discriminate|].
  destruct (row_data !! "id") as [id|], (row_data !! "title") as [title|];
    cbv zeta; repeat case_bool_decide;
    try (intros [= <-]; by apply rejection_intro).
  apply IH.
Qed.

Lemma convert_sections_rejection sections section_objects env :
  convert_sections sections section_objects = inl env → rejection env.
Proof.
  revert section_objects.
  induction sections as [|section_data rest IH]; intros acc;
    cbn [convert_sections]; [discriminate|].
  destruct (sd_rows section_data) as [rows_data|];
    [|intros [= <-]; by apply rejection_intro].
  cbv zeta. case_bool_decide; [intros [= <-]; by apply rejection_intro|].
  destruct (convert_rows rows_data []) as [early|rows] eqn:Hrows.
  - intros [= <-]. by eapply convert_rows_rejection.
  - apply IH.
Qed.

(** ** Running a handler *)

Ltac unfold_handler :=
  cbv [run invoke send_message send_image send_video send_document send_audio
       send_sticker send_location request_location send_contact send_reaction
       remove_reaction mark_message_as_read indicate_typing upload_media
       send_message_with_buttons send_message_with_list send_template
       get_templates iterate raise try_except mbind M_bind mret M_ret call
       logger on_exception world0 calls logged];
  cbn [app is_exception exc_class].

Tactic Notation "unfold_handler" "in" hyp(H) :=
  cbv [run invoke send_message send_image send_video send_document send_audio
       send_sticker send_location request_location send_contact send_reaction
       remove_reaction mark_message_as_read indicate_typing upload_media
       send_message_with_buttons send_message_with_list send_template
       get_templates iterate raise try_except mbind M_bind mret M_ret call
       logger on_exception world0 calls logged] in H;
  cbn [app is_exception exc_class] in H.

(** Case analysis on what the transport does at the call in the goal: it
    returns [r], it raises an instance [e] of [Exception], or it raises
    another exception [e]. *)
Ltac transport_cases r e E :=
  match goal with
  | |- context [match ?tr ?c with Returns _ => _ | Raises _ => _ end] =>
    destruct (tr c) as [r|e] eqn:E;
    [|let C := fresh "Hclass" in destruct (is_exception e) eqn:C]
  end.

(** The same without names, for goals that every case closes alike. *)
Ltac outcome_cases :=
  match goal with
  | |- context [match ?tr ?c with Returns _ => _ | Raises _ => _ end] =>
    destruct (tr c) as [?|?];
    [|match goal with
      | |- context [is_exception ?e] => destruct (is_exception e)
      end]
  end.

Tactic Notation "outcome_cases" "in" hyp(H) :=
  match type of H with
  | context [match ?tr ?c with Returns _ => _ | Raises _ => _ end] =>
    destruct (tr c) as [?|?];
    [|match type of H with
      | context [is_exception ?e] => destruct (is_exception e)
      end]
  end.

(** Case analysis on the condition [b] of an [if] of the handler. *)
Ltac on_if b := destruct b eqn:?; unfold_handler.

(** ** How a run ends *)

Ltac finish_ending :=
  let r := fresh "r" in let e := fresh "e" in let E := fresh "E" in
  transport_cases r e E;
  [ eapply ended_success; [exact E|discriminate|reflexivity|reflexivity]
  | by eapply ended_raised
  | by eapply ended_propagated ].

Lemma ending_rejection iterates tr env :
  rejection env → ending iterates tr (Ok env, MkWorld [] []).
Proof. intros (msg & -> & Hne). by apply ended_rejected. Qed.

Lemma invoke_ending t tr : ending (iterates_result t) tr (run (invoke t) tr).
Proof.
  destruct t; unfold_handler; cbn [iterates_result]; try finish_ending.
  - (* send_message_with_buttons *)
    on_if (bool_decide (3 < length buttons)); [by apply ended_rejected|].
    on_if (and_len_gt header 60); [by apply ended_rejected|].
    on_if (and_len_gt footer 60); [by apply ended_rejected|].
    destruct (convert_buttons buttons []) as [early|button_objects] eqn:Hconv;
      unfold_handler.
    + by eapply ending_rejection, convert_buttons_rejection.
    + finish_ending.
  - (* send_message_with_list *)
    on_if (bool_decide (10 < length sections)); [by apply ended_rejected|].
    on_if (bool_decide (20 < len button_text)); [by apply ended_rejected|].
    on_if (and_len_gt header 60); [by apply ended_rejected|].
    on_if (and_len_gt footer 60); [by apply ended_rejected|].
    on_if (bool_decide (10 < total_row_count sections)); [by apply ended_rejected|].
    destruct (convert_sections sections []) as [early|section_objects] eqn:Hconv;
      unfold_handler.
    + by eapply ending_rejection, convert_sections_rejection.
    + finish_ending.
  - (* get_templates *)
    transport_cases r e E;
      [|by eapply ended_raised|by eapply ended_propagated].
    destruct (py_iter r) as [items|] eqn:Hiter.
    + eapply ended_success; [exact E|by rewrite Hiter|reflexivity|reflexivity].
    + eapply (ended_not_iterable _ _ _ r "Failed to get templates"
                ("'" +:+ py_type r +:+ "' object is not iterable"));
        [done|exact E|exact Hiter|discriminate].
Qed.

(** ** The envelope contract *)

(** C1, as amended: every tool handler is total at its boundary for every
    input and every behaviour of the transport that returns an object or
    raises an instance of [Exception]: the handler returns a dictionary and
    no exception leaves it; the dictionary is a success envelope with
    [success: true] or a failure envelope with [success: false] and a
    string [error], and there is no third shape.  The [error] string is
    the empty string only when the transport raised an exception whose
    string message is empty.  An exception of the transport that is not an
    instance of [Exception] ([KeyboardInterrupt], [SystemExit]) is not
    caught: it leaves the handler, after the one call and with nothing
    logged; and nothing else ever leaves a handler. *)
Theorem handlers_total_envelope (t : ToolCall) (tr : Transport) :
  ((∀ c e, c ∈ calls (run (invoke t) tr).2 → tr c = Raises e →
           is_exception e = true) →
   ∃ env w, run (invoke t) tr = (Ok env, w) ∧
     (is_success env ∨
      (is_failure env ∧
       (env !! "error" = Some (VStr "") →
        ∃ c e, c ∈ calls w ∧ tr c = Raises e ∧ exc_str e = "")))) ∧
  (∀ c e, c ∈ calls (run (invoke t) tr).2 → tr c = Raises e →
          is_exception e = false →
          run (invoke t) tr = (Raise e, MkWorld [c] [])) ∧
  (∀ e w, run (invoke t) tr = (Raise e, w) →
          is_exception e = false ∧ ∃ c, calls w = [c] ∧ tr c = Raises e).
Proof.
  destruct (invoke_ending t tr)
    as [msg Hne|c result env info Hret _ Hok Herr|c e what Hraise Hclass
        |c result what msg _ Hret _ Hne|c e Hraise Hclass];
    cbn [calls snd].
  - (* rejected before any call *)
    split; [|split].
    + intros _. eexists _, _. split; [done|]. right.
      split; [apply failure_is_failure|].
      rewrite failure_error. intros [= ->]. by destruct Hne.
    + by intros ? ? ?%elem_of_nil.
    + by intros ? ? [=].
  - (* the call returned *)
    split; [|split].
    + intros _. eexists _, _. split; [done|]. by left.
    + intros c' e ->%list_elem_of_singleton. congruence.
    + by intros ? ? [=].
  - (* the call raised an instance of Exception *)
    split; [|split].
    + intros _. eexists _, _. split; [done|]. right.
      split; [apply failure_is_failure|].
      rewrite failure_error. intros [= Hempty].
      exists c, e. split; [apply list_elem_of_singleton; reflexivity|done].
    + intros c' e' ->%list_elem_of_singleton. congruence.
    + by intros ? ? [=].
  - (* the result is not iterable *)
    split; [|split].
    + intros _. eexists _, _. split; [done|]. right.
      split; [apply failure_is_failure|].
      rewrite failure_error. intros [= ->]. by destruct Hne.
    + intros c' e ->%list_elem_of_singleton. congruence.
    + by intros ? ? [=].
  - (* the call raised another exception *)
    split; [|split].
    + intros Hall. specialize (Hall c e). rewrite Hclass in Hall.
      by discriminate Hall; [apply list_elem_of_singleton|].
    + intros c' e' ->%list_elem_of_singleton. congruence.
    + intros e' w [= <- <-]. split; [done|]. by exists c.
Qed.

Lemma handlers_total_envelope_witness :
  ∃ env w,
    run (invoke (call_send_sticker "+1234567890" "media-id" None))
      (raising (MkPyExc (OtherException "WhatsAppError") "Invalid parameter"))
    = (Ok env, w) ∧
    (is_success env ∨
     (is_failure env ∧
      (env !! "error" = Some (VStr "") →
       ∃ c e, c ∈ calls w ∧
              raising (MkPyExc (OtherException "WhatsAppError") "Invalid parameter") c
              = Raises e ∧ exc_str e = ""))).
Proof.
  apply (proj1 (handlers_total_envelope
                  (call_send_sticker "+1234567890" "media-id" None)
                  (raising (MkPyExc (OtherException "WhatsAppError")
                              "Invalid parameter")))).
  intros c e _ [= <-]. reflexivity.
Defined.

(** A [KeyboardInterrupt] of the transport leaves [send_message]: the
    handler returns no dictionary, so the contract as the specification
    words it fails here too. *)
Lemma keyboard_interrupt_leaves_handler :
  run (invoke (call_send_message "+1234567890" "hello" None None None None))
    (raising (MkPyExc KeyboardInterrupt ""))
  = (Raise (MkPyExc KeyboardInterrupt ""),
     MkWorld [wa_send_message "+1234567890" "hello" None None None (Some false) None]
       []) ∧
  ¬ envelope_contract
      (call_send_message "+1234567890" "hello" None None None None)
      (raising (MkPyExc KeyboardInterrupt "")).
Proof.
  assert (Hrun :
    run (invoke (call_send_message "+1234567890" "hello" None None None None))
      (raising (MkPyExc KeyboardInterrupt ""))
    = (Raise (MkPyExc KeyboardInterrupt ""),
       MkWorld [wa_send_message "+1234567890" "hello" None None None
                  (Some false) None] [])) by reflexivity.
  split; [exact Hrun|].
  intros (env & w & Hrun' & _). rewrite Hrun in Hrun'. discriminate Hrun'.
Qed.

(** C1, as stated, fails: when the transport raises an exception whose
    string message is empty, [send_message] returns
    [{"success": False, "error": ""}], a failure envelope whose [error] is
    the empty string. *)
Lemma empty_error_envelope :
  ¬ envelope_contract
      (call_send_message "+1234567890" "hello" None None None None)
      (raising (MkPyExc (OtherException "ReadTimeout") "")).
Proof.
  intros (env & w & Hrun & Hshape).
  unfold raising in Hrun. unfold_handler in Hrun. injection Hrun as <- <-.
  destruct Hshape as [Hok|[_ (msg & Herr & Hne)]].
  - by apply failure_not_success in Hok.
  - rewrite failure_error in Herr. injection Herr as <-. by destruct Hne.
Qed.

(** ** Validation of a button message *)

Lemma and_len_gt_longer_than n s : and_len_gt s n = longer_than n s.
Proof.
  destruct s as [s|]; [|done]. cbn.
  destruct s as [|c s]; cbn; [|done].
  symmetry. apply bool_decide_eq_false. unfold len. cbn. lia.
Qed.

Lemma first_violated_app checks1 checks2 :
  first_violated (checks1 ++ checks2) =
  match first_violated checks1 with
  | Some msg => Some msg
  | None => first_violated checks2
  end.
Proof.
  induction checks1 as [|[[] msg] rest IH]; cbn; done.
Qed.

(** The loop over the buttons stops at the first violated check and
    otherwise appends the normalized buttons in order. *)
Lemma convert_buttons_checks buttons button_objects :
  convert_buttons buttons button_objects =
  match first_violated (concat (button_checks <$> buttons)) with
  | Some msg => inl (failure msg)
  | None => inr (button_objects ++ (normalize_button <$> buttons))%list
  end.
Proof.
  revert button_objects.
  induction buttons as [|btn rest IH]; intros acc.
  { cbn. by rewrite app_nil_r. }
  cbn [convert_buttons fmap list_fmap concat].
  rewrite first_violated_app. unfold button_checks at 1, normalize_button at 1.
  destruct (btn !! "id") as [id|], (btn !! "title") as [title|];
    cbn [default from_option Datatypes.id first_violated];
    try (rewrite bool_decide_eq_true_2; [done|tauto]).
  rewrite (bool_decide_eq_false_2 (Some id = None ∨ Some title = None))
    by (intros [?|?]; discriminate).
  destruct (bool_decide (20 < len title)); [done|].
  destruct (bool_decide (256 < len id)); [done|].
  rewrite IH, <- app_assoc. done.
Qed.

(** [send_message_with_buttons] as one case analysis on the checks. *)
Lemma run_send_message_with_buttons to text buttons header footer reply tr :
  run (send_message_with_buttons to text buttons header footer reply) tr =
  match first_violated (button_message_checks buttons header footer) with
  | Some msg => (Ok (failure msg), world0)
  | None =>
    send_and_wrap tr
      (wa_send_message to text header footer
         (Some (ButtonObjects (normalize_button <$> buttons))) None reply)
      ("Message with buttons sent to " +:+ to)
      "Failed to send message with buttons"
      (λ result, {[ "success" := VBool true;
                    "message_id" := extract_message_id result ]})
  end.
Proof.
  unfold button_message_checks. cbn [app first_violated].
  rewrite <- !and_len_gt_longer_than.
  unfold_handler.
  on_if (bool_decide (3 < length buttons)); [done|].
  on_if (and_len_gt header 60); [done|].
  on_if (and_len_gt footer 60); [done|].
  rewrite convert_buttons_checks.
  destruct (first_violated (concat (button_checks <$> buttons))); unfold_handler; [done|].
  unfold send_and_wrap. cbn [app]. by outcome_cases.
Qed.

(** C2: [send_message_with_buttons] validates in the fixed order of
    [button_message_checks] (more than 3 buttons; header present and longer
    than 60; footer present and longer than 60; then for each button in
    list order a missing ['id'] or ['title'] key, a title longer than 20
    with the title echoed, an id longer than 256 with the id echoed) and
    stops at the first violated check: the result is the failure dictionary
    of that check and the transport is not invoked, and when no check is
    violated the transport is invoked.  In particular every payload with
    four or more buttons yields
    [{"success": False, "error": "Maximum 3 buttons allowed"}] whatever the
    buttons contain, without a transport call. *)
Theorem buttons_validation_order :
  (∀ to text buttons header footer reply tr,
     match first_violated (button_message_checks buttons header footer) with
     | Some msg =>
       run (send_message_with_buttons to text buttons header footer reply) tr
       = (Ok (failure msg), world0)
     | None =>
       length (calls (run (send_message_with_buttons to text buttons header
                             footer reply) tr).2) = 1
     end) ∧
  (∀ to text b1 b2 b3 b4 more header footer reply tr,
     run (send_message_with_buttons to text (b1 :: b2 :: b3 :: b4 :: more)
            header footer reply) tr
     = (Ok (failure "Maximum 3 buttons allowed"), world0)).
Proof.
  split.
  - intros. rewrite run_send_message_with_buttons.
    destruct (first_violated _); [done|].
    unfold send_and_wrap. by outcome_cases.
  - intros. rewrite run_send_message_with_buttons.
    unfold button_message_checks. cbn [app first_violated].
    rewrite bool_decide_eq_true_2; [done|]. cbn. lia.
Qed.

(** ** Valid button messages reach the transport *)

Lemma within_longer_than n s : within n s → longer_than n s = false.
Proof.
  destruct s as [s|]; cbn; [|done].
  intros H. apply bool_decide_eq_false. lia.
Qed.

Lemma well_formed_button_checks btn :
  well_formed_button btn → first_violated (button_checks btn) = None.
Proof.
  intros (id & title & Hid & Htitle & Hlt & Hli).
  unfold button_checks. rewrite Hid, Htitle.
  cbn [default from_option Datatypes.id first_violated].
  rewrite (bool_decide_eq_false_2 (Some id = None ∨ Some title = None))
    by (intros [?|?]; discriminate).
  rewrite !bool_decide_eq_false_2 by lia. done.
Qed.

Lemma well_formed_buttons_checks buttons :
  Forall well_formed_button buttons →
  first_violated (concat (button_checks <$> buttons)) = None.
Proof.
  induction 1 as [|btn rest Hbtn _ IH]; [done|].
  cbn [fmap list_fmap concat]. rewrite first_violated_app.
  by rewrite well_formed_button_checks.
Qed.

Lemma well_formed_button_of btn :
  well_formed_button btn → button_of btn (normalize_button btn).
Proof.
  intros (id & title & Hid & Htitle & _). unfold button_of, normalize_button.
  by rewrite Hid, Htitle.
Qed.

(** C6: for every button list of length at most 3 in which each button has
    both keys, a title of at most 20 and an id of at most 256 characters,
    with header and footer of at most 60 characters when present,
    [send_message_with_buttons] invokes the transport exactly once, with a
    list of button objects that has the length and the order of the input
    and in which each button's id is the callback data and its title the
    title; when the transport returns, the handler returns
    [{"success": True, "message_id": ..}] with the message id of the
    result: the value of its [id] attribute, or its string rendering when
    it has none, or [None] when the result is falsy. *)
Theorem valid_buttons_sent to text buttons header footer reply tr :
  (length buttons ≤ 3)%nat →
  Forall well_formed_button buttons →
  within 60 header →
  within 60 footer →
  ∃ button_objects,
    length button_objects = length buttons ∧
    Forall2 button_of buttons button_objects ∧
    calls (run (send_message_with_buttons to text buttons header footer reply) tr).2
    = [wa_send_message to text header footer
         (Some (ButtonObjects button_objects)) None reply] ∧
    ∀ result,
      tr (wa_send_message to text header footer
            (Some (ButtonObjects button_objects)) None reply) = Returns result →
      (run (send_message_with_buttons to text buttons header footer reply) tr).1
      = Ok {[ "success" := VBool true;
              "message_id" :=
                if py_bool result then
                  match py_attrs result !! "id" with
                  | Some id => VObj id
                  | None => VStr (py_str result)
                  end
                else VNone ]}.
Proof.
  intros Hlen Hwf Hheader Hfooter.
  exists (normalize_button <$> buttons).
  split; [by rewrite length_fmap|].
  split.
  { apply Forall2_fmap_r, Forall_Forall2_diag.
    eapply Forall_impl; [exact Hwf|]. apply well_formed_button_of. }
  rewrite run_send_message_with_buttons.
  unfold button_message_checks. cbn [app first_violated].
  rewrite bool_decide_eq_false_2 by lia.
  rewrite !within_longer_than by done.
  rewrite well_formed_buttons_checks by done.
  unfold send_and_wrap. split.
  - by outcome_cases.
  - intros result ->. done.
Qed.

Lemma valid_buttons_sent_witness :
  ∃ button_objects,
    length button_objects = 2 ∧
    Forall2 button_of yes_no_buttons button_objects ∧
    calls (run (send_message_with_buttons "+1234567890" "Choose" yes_no_buttons
                  None None None) (returning (sent_message "wamid.1"))).2
    = [wa_send_message "+1234567890" "Choose" None None
         (Some (ButtonObjects button_objects)) None None] ∧
    (run (send_message_with_buttons "+1234567890" "Choose" yes_no_buttons
            None None None) (returning (sent_message "wamid.1"))).1
    = Ok {[ "success" := VBool true;
            "message_id" :=
              VObj (MkPyObject true "wamid.1" "str" ∅
                      (Some [MkPyObject true "w" "str" ∅ None;
                             MkPyObject true "a" "str" ∅ None;
                             MkPyObject true "m" "str" ∅ None;
                             MkPyObject true "i" "str" ∅ None;
                             MkPyObject true "d" "str" ∅ None;
                             MkPyObject true "." "str" ∅ None;
                             MkPyObject true "1" "str" ∅ None])) ]}.
Proof.
  destruct (valid_buttons_sent "+1234567890" "Choose" yes_no_buttons None None
              None (returning (sent_message "wamid.1")))
    as (button_objects & Hlen & Hof & Hcalls & Hret).
  - cbn. lia.
  - repeat constructor; eexists _, _;
      (split; [reflexivity|split; [reflexivity|cbn; lia]]).
  - exact I.
  - exact I.
  - exists button_objects. split; [exact Hlen|]. split; [exact Hof|].
    split; [exact Hcalls|].
    rewrite (Hret (sent_message "wamid.1") eq_refl). reflexivity.
Defined.

(** ** Validation and normalization of a list message *)

Lemma convert_rows_inr rows_data rows out :
  convert_rows rows_data rows = inr out →
  out = (rows ++ (normalize_row <$> rows_data))%list.
Proof.
  revert rows.
  induction rows_data as [|row_data rest IH]; intros acc;
    cbn [convert_rows fmap list_fmap].
  { intros [= <-]. by rewrite app_nil_r. }
  unfold normalize_row at 1.
  destruct (row_data !! "id") as [id|], (row_data !! "title") as [title|];
    try discriminate.
  cbv zeta. repeat case_bool_decide; try discriminate.
  intros Hout. apply IH in Hout. subst out. rewrite <- app_assoc.
  by destruct (row_data !! "description") as [[|c d]|].
Qed.

Lemma convert_sections_inr sections section_objects out :
  convert_sections sections section_objects = inr out →
  out = (section_objects ++ omap normalize_section sections)%list.
Proof.
  revert section_objects.
  induction sections as [|section_data rest IH]; intros acc;
    cbn [convert_sections].
  { intros [= <-]. by rewrite app_nil_r. }
  unfold omap; cbn [list_omap]; fold (omap normalize_section rest).
  unfold normalize_section at 1.
  destruct (sd_rows section_data) as [rows_data|]; [|discriminate].
  cbv zeta. case_bool_decide; [discriminate|].
  destruct (convert_rows rows_data []) as [early|rows] eqn:Hrows; [discriminate|].
  apply convert_rows_inr in Hrows. subst rows. cbn [app default from_option Datatypes.id].
  intros Hout. apply IH in Hout. subst out.
  destruct rows_data as [|row_data more]; cbn [fmap list_fmap]; [done|].
  by rewrite <- app_assoc.
Qed.

(** [send_message_with_list] as one case analysis on the checks. *)
Lemma run_send_message_with_list to text button_text sections header footer reply tr :
  run (send_message_with_list to text button_text sections header footer reply) tr =
  match
    first_violated
      [ (bool_decide (10 < length sections), "Maximum 10 sections allowed");
        (bool_decide (20 < len button_text), "Button text must be max 20 characters");
        (longer_than 60 header, "Header text must be max 60 characters");
        (longer_than 60 footer, "Footer text must be max 60 characters");
        (bool_decide (10 < total_row_count sections),
         "Maximum 10 rows total across all sections") ]
  with
  | Some msg => (Ok (failure msg), world0)
  | None =>
    match convert_sections sections [] with
    | inl early => (Ok early, world0)
    | inr section_objects =>
      send_and_wrap tr
        (wa_send_message to text header footer
           (Some (ListObject (MkSectionList button_text section_objects)))
           None reply)
        ("Message with list sent to " +:+ to)
        "Failed to send message with list"
        (λ result, {[ "success" := VBool true;
                      "message_id" := extract_message_id result ]})
    end
  end.
Proof.
  cbn [first_violated]. rewrite <- !and_len_gt_longer_than.
  unfold_handler.
  on_if (bool_decide (10 < length sections)); [done|].
  on_if (bool_decide (20 < len button_text)); [done|].
  on_if (and_len_gt header 60); [done|].
  on_if (and_len_gt footer 60); [done|].
  on_if (bool_decide (10 < total_row_count sections)); [done|].
  destruct (convert_sections sections []); unfold_handler; [done|].
  unfold send_and_wrap. cbn [app]. by outcome_cases.
Qed.

(** Every call [send_message_with_list] makes carries the normalized
    sections of its payload. *)
Lemma send_message_with_list_calls to text button_text sections header footer reply tr c :
  c ∈ calls (run (send_message_with_list to text button_text sections header
                    footer reply) tr).2 →
  c = wa_send_message to text header footer
        (Some (ListObject (MkSectionList button_text
                             (omap normalize_section sections)))) None reply.
Proof.
  rewrite run_send_message_with_list.
  destruct (first_violated _); [by intros ?%elem_of_nil|].
  destruct (convert_sections sections []) as [early|section_objects] eqn:Hconv;
    [by intros ?%elem_of_nil|].
  apply convert_sections_inr in Hconv as ->. cbn [app].
  unfold send_and_wrap. by outcome_cases; intros ->%list_elem_of_singleton.
Qed.

Lemma convert_rows_well_formed rows_data rows :
  Forall well_formed_row rows_data →
  convert_rows rows_data rows = inr (rows ++ (normalize_row <$> rows_data))%list.
Proof.
  intros Hwf. revert rows.
  induction Hwf as [|row_data rest (id & title & Hid & Htitle & ? & ? & ?) _ IH];
    intros acc; cbn [convert_rows fmap list_fmap].
  { by rewrite app_nil_r. }
  unfold normalize_row at 1. rewrite Hid, Htitle. cbv zeta.
  rewrite !bool_decide_eq_false_2 by lia.
  rewrite IH, <- app_assoc.
  by destruct (row_data !! "description") as [[|c d]|].
Qed.

(** The row total is the sum of the lengths of the raw row arrays, a
    section without a ['rows'] key counting zero. *)
Lemma total_row_count_raw sections :
  total_row_count sections =
  sum_list_with (λ section,
                   match sd_rows section with
                   | Some rows_data => length rows_data
                   | None => 0
                   end) sections.
Proof.
  unfold total_row_count.
  induction sections as [|section rest IH]; cbn; [done|].
  rewrite IH. by destruct (sd_rows section).
Qed.

(** C3: in [send_message_with_list] the description of a row defaults to
    the empty string when the key is absent (the row is treated as the same
    row with [description: ""]), and a row whose description is empty is
    built with no description ([None]) rather than with the empty string;
    this is the row that reaches the transport. *)
Theorem empty_description_is_none row_data id title :
  row_data !! "id" = Some id →
  row_data !! "title" = Some title →
  (len id ≤ 200)%nat →
  (len title ≤ 24)%nat →
  (row_data !! "description" = None →
   ∀ rest rows,
     convert_rows (row_data :: rest) rows
     = convert_rows (<["description" := ""]> row_data :: rest) rows) ∧
  (default "" (row_data !! "description") = "" →
   (∀ rest rows,
      convert_rows (row_data :: rest) rows
      = convert_rows rest (rows ++ [MkSectionRow title id None])) ∧
   (∀ to text button_text section_title header footer reply tr,
      (len button_text ≤ 20)%nat → (len section_title ≤ 24)%nat →
      within 60 header → within 60 footer →
      calls (run (send_message_with_list to text button_text
                    [MkSectionData (Some section_title) (Some [row_data])]
                    header footer reply) tr).2
      = [wa_send_message to text header footer
           (Some (ListObject
                    (MkSectionList button_text
                       [MkSection section_title [MkSectionRow title id None]])))
           None reply])).
Proof.
  intros Hid Htitle Hlid Hltitle. split; [|intros Hempty; split].
  - intros Hdesc rest rows. cbn [convert_rows].
    rewrite !lookup_insert_ne by done. rewrite lookup_insert_eq, Hdesc. done.
  - intros rest rows. cbn [convert_rows]. rewrite Hid, Htitle. cbv zeta.
    rewrite Hempty. rewrite !bool_decide_eq_false_2 by (unfold len in *; cbn; lia).
    done.
  - intros to text button_text section_title header footer reply tr ? ? ? ?.
    rewrite run_send_message_with_list. cbn [first_violated].
    rewrite !within_longer_than by done.
    rewrite !bool_decide_eq_false_2 by (unfold total_row_count, len in *; cbn; lia).
    assert (Hwf : Forall well_formed_row [row_data]).
    { apply Forall_singleton. exists id, title. rewrite Hempty.
      unfold len in *. cbn. repeat split; (done || lia). }
    cbn [convert_sections sd_rows sd_title default from_option Datatypes.id].
    rewrite bool_decide_eq_false_2 by lia.
    rewrite convert_rows_well_formed by done. cbn [app fmap list_fmap convert_sections].
    unfold normalize_row. rewrite Hid, Htitle.
    cbn [default from_option Datatypes.id].
    replace (match row_data !! "description" with
             | Some (String c d) => Some (String c d)
             | _ => None
             end) with (@None string)
      by (by destruct (row_data !! "description") as [[|c d]|]).
    unfold send_and_wrap. by outcome_cases.
Qed.

Lemma empty_description_is_none_witness :
  (plain_row !! "id" = Some "r1" ∧ plain_row !! "title" = Some "T" ∧
   (len "r1" ≤ 200)%nat ∧ (len "T" ≤ 24)%nat) ∧
  convert_rows [plain_row] [] = inr [MkSectionRow "T" "r1" None].
Proof.
  assert (H1 : plain_row !! "id" = Some "r1") by reflexivity.
  assert (H2 : plain_row !! "title" = Some "T") by reflexivity.
  assert (H3 : (len "r1" ≤ 200)%nat) by (cbn; lia).
  assert (H4 : (len "T" ≤ 24)%nat) by (cbn; lia).
  split; [done|].
  destruct (empty_description_is_none plain_row "r1" "T" H1 H2 H3 H4) as [_ H].
  destruct (H eq_refl) as [Hrows _]. rewrite Hrows. reflexivity.
Defined.

(** C4, as stated, fails: the row total is checked after the number of
    sections, so eleven sections of one valid row each (a raw row total of
    eleven) fail with the too-many-sections error, not with the
    too-many-rows error. *)
Lemma eleven_sections_fail_on_section_count :
  run (send_message_with_list "+1234567890" "Choose" "Menu"
         eleven_single_row_sections None None None)
    (returning (sent_message "wamid.1"))
  = (Ok (failure "Maximum 10 sections allowed"), world0) ∧
  ¬ fails_with_too_many_rows "+1234567890" "Choose" "Menu"
      eleven_single_row_sections None None None
      (returning (sent_message "wamid.1")).
Proof.
  assert (Hrun :
    run (send_message_with_list "+1234567890" "Choose" "Menu"
           eleven_single_row_sections None None None)
      (returning (sent_message "wamid.1"))
    = (Ok (failure "Maximum 10 sections allowed"), world0)) by reflexivity.
  split; [exact Hrun|].
  intros Hclaim. destruct Hclaim as (w & Hrun'); [vm_compute; lia|].
  rewrite Hrun in Hrun'.
  assert (Herr := f_equal (λ out : Res Envelope * World,
                             match out.1 with
                             | Ok env => env !! "error"
                             | Raise _ => None
                             end) Hrun').
  cbv beta in Herr. cbn [fst] in Herr. rewrite !failure_error in Herr.
  discriminate Herr.
Qed.

(** C4, as amended: the row total of [send_message_with_list] is the sum
    of the lengths of the raw row arrays of the sections, a section without
    a ['rows'] key counting zero.  It is checked after the four checks on
    the number of sections, the button text, the header and the footer,
    and before any section or row is looked at: a payload that passes
    those four checks and whose raw row total exceeds 10 fails with the
    too-many-rows error whatever its sections and rows contain, also when
    a section is structurally invalid or a row would fail its own checks;
    and every payload whose raw row total exceeds 10 fails without a
    transport call. *)
Theorem total_rows_checked_first to text button_text sections header footer reply tr :
  10 < total_row_count sections →
  total_row_count sections
  = sum_list_with (λ section,
                     match sd_rows section with
                     | Some rows_data => length rows_data
                     | None => 0
                     end) sections ∧
  (∃ msg, run (send_message_with_list to text button_text sections header
                 footer reply) tr = (Ok (failure msg), world0)) ∧
  ((length sections ≤ 10)%nat → (len button_text ≤ 20)%nat →
   within 60 header → within 60 footer →
   run (send_message_with_list to text button_text sections header footer reply) tr
   = (Ok (failure "Maximum 10 rows total across all sections"), world0)).
Proof.
  intros Htotal. split; [apply total_row_count_raw|].
  rewrite run_send_message_with_list. cbn [first_violated].
  rewrite (bool_decide_eq_true_2 (10 < total_row_count sections)) by done.
  split.
  - repeat (match goal with |- context [if ?b then _ else _] => destruct b end);
      eauto.
  - intros ? ? ? ?. rewrite !within_longer_than by done.
    by rewrite !bool_decide_eq_false_2 by lia.
Qed.

Lemma total_rows_checked_first_witness :
  10 < total_row_count eleven_bad_rows ∧
  run (send_message_with_list "+1234567890" "Choose" "Menu" eleven_bad_rows
         None None None) (returning (sent_message "wamid.1"))
  = (Ok (failure "Maximum 10 rows total across all sections"), world0).
Proof.
  assert (H : 10 < total_row_count eleven_bad_rows) by (vm_compute; lia).
  split; [exact H|].
  apply (total_rows_checked_first "+1234567890" "Choose" "Menu" eleven_bad_rows
           None None None (returning (sent_message "wamid.1")) H).
  - cbn. lia.
  - cbn. lia.
  - exact I.
  - exact I.
Defined.

(** ** Sections without rows *)

Lemma normalize_section_rows section_data sec :
  normalize_section section_data = Some sec → sec_rows sec ≠ [].
Proof.
  unfold normalize_section.
  destruct (default [] (sd_rows section_data)); [done|]. by intros [= <-].
Qed.

(** C5: every section of the section list that [send_message_with_list]
    hands to the transport has at least one row.  A section whose rows
    array is empty (and whose title is within its limit) is not an error:
    the loop goes on without adding a section for it.  So a payload of a
    section without rows and a section of two well-formed rows reaches the
    transport as a section list of exactly one section, the second. *)
Theorem sections_without_rows_dropped :
  (∀ to text button_text sections header footer reply tr c,
     c ∈ calls (run (send_message_with_list to text button_text sections
                       header footer reply) tr).2 →
     ∃ sl, section_list_of c = Some sl ∧
           Forall (λ sec, sec_rows sec ≠ []) (sl_sections sl)) ∧
  (∀ title rest section_objects,
     (len (default "" title) ≤ 24)%nat →
     convert_sections (MkSectionData title (Some []) :: rest) section_objects
     = convert_sections rest section_objects) ∧
  (∀ to text button_text title1 title2 row1 row2 header footer reply tr,
     (len button_text ≤ 20)%nat → within 60 header → within 60 footer →
     (len (default "" title1) ≤ 24)%nat → (len (default "" title2) ≤ 24)%nat →
     well_formed_row row1 → well_formed_row row2 →
     calls (run (send_message_with_list to text button_text
                   [MkSectionData title1 (Some []);
                    MkSectionData title2 (Some [row1; row2])]
                   header footer reply) tr).2
     = [wa_send_message to text header footer
          (Some (ListObject
                   (MkSectionList button_text
                      [MkSection (default "" title2)
                         [normalize_row row1; normalize_row row2]])))
          None reply]).
Proof.
  split; [|split].
  - intros * Hc. apply send_message_with_list_calls in Hc as ->.
    eexists. split; [reflexivity|]. cbn [sl_sections].
    apply Forall_forall. intros sec (sd & _ & Hsec)%list_elem_of_omap.
    by eapply normalize_section_rows.
  - intros title rest acc Htitle. cbn [convert_sections sd_rows sd_title].
    cbv zeta. by rewrite bool_decide_eq_false_2 by lia.
  - intros * ? ? ? ? ? Hrow1 Hrow2.
    rewrite run_send_message_with_list. cbn [first_violated].
    rewrite !within_longer_than by done.
    rewrite !bool_decide_eq_false_2 by (unfold total_row_count, len in *; cbn; lia).
    cbn [convert_sections sd_rows sd_title]. cbv zeta.
    rewrite !bool_decide_eq_false_2 by lia.
    rewrite (convert_rows_well_formed [row1; row2])
      by (constructor; [done|by apply Forall_singleton]).
    cbn [convert_rows app fmap list_fmap].
    unfold send_and_wrap. by outcome_cases.
Qed.

Lemma sections_without_rows_dropped_witness :
  calls (run (send_message_with_list "+1234567890" "Choose" "View Menu"
                one_empty_one_full None None None)
           (returning (sent_message "wamid.1"))).2
  = [wa_send_message "+1234567890" "Choose" None None
       (Some (ListObject
                (MkSectionList "View Menu"
                   [MkSection "Drinks"
                      [MkSectionRow "Coca Cola" "coke" (Some "Cold refreshing drink");
                       MkSectionRow "Water" "water" None]])))
       None None].
Proof.
  destruct sections_without_rows_dropped as (_ & _ & Hscenario).
  unfold one_empty_one_full.
  rewrite (Hscenario "+1234567890" "Choose" "View Menu" (Some "Empty")
             (Some "Drinks")
             {[ "id" := "coke"; "title" := "Coca Cola";
                "description" := "Cold refreshing drink" ]}
             {[ "id" := "water"; "title" := "Water" ]}
             None None None (returning (sent_message "wamid.1"))).
  - reflexivity.
  - cbn. lia.
  - exact I.
  - exact I.
  - cbn. lia.
  - cbn. lia.
  - exists "coke", "Coca Cola".
    split; [reflexivity|]. split; [reflexivity|]. vm_compute. lia.
  - exists "water", "Water".
    split; [reflexivity|]. split; [reflexivity|]. vm_compute. lia.
Defined.

(** ** The message identifier *)

Lemma reports_extracted_id_failure tr msg w :
  reports_extracted_id tr (Ok (failure msg), w).
Proof. intros env w' [= <- <-] Hok. by apply failure_not_success in Hok. Qed.

Lemma reports_extracted_id_propagated tr e w :
  reports_extracted_id tr (Raise e, w).
Proof. by intros env w' [=]. Qed.

Lemma reports_extracted_id_wrap tr c ok_msg err_msg (k : PyObject → Envelope) :
  (∀ result, k result !! "message_id" = Some (extract_message_id result)) →
  reports_extracted_id tr (send_and_wrap tr c ok_msg err_msg k).
Proof.
  intros Hk. unfold send_and_wrap.
  destruct (tr c) as [result|e] eqn:E.
  - intros env w [= <- <-] _. by exists c, result.
  - destruct (is_exception e);
      [apply reports_extracted_id_failure|apply reports_extracted_id_propagated].
Qed.

Ltac finish_reports :=
  let r := fresh "r" in let e := fresh "e" in let E := fresh "E" in
  transport_cases r e E;
  [ intros ? ? [= <- <-] _; eexists _, _;
    split; [reflexivity|split; [exact E|reflexivity]]
  | apply reports_extracted_id_failure
  | apply reports_extracted_id_propagated ].

Lemma invoke_reports_extracted_id t tr :
  reports_message_id t = true → reports_extracted_id tr (run (invoke t) tr).
Proof.
  destruct t; try discriminate; intros _;
    try (unfold_handler; finish_reports).
  - cbn [invoke]. rewrite run_send_message_with_buttons.
    destruct (first_violated _); [apply reports_extracted_id_failure|].
    by apply reports_extracted_id_wrap.
  - cbn [invoke]. rewrite run_send_message_with_list.
    destruct (first_violated _); [apply reports_extracted_id_failure|].
    destruct (convert_sections sections []) as [early|section_objects] eqn:Hconv.
    + apply convert_sections_rejection in Hconv as (msg & -> & _).
      apply reports_extracted_id_failure.
    + by apply reports_extracted_id_wrap.
Qed.

(** C7: for every handler that reports a message identifier, the
    [message_id] of the success dictionary follows from what the transport
    returned: the value of the result's [id] attribute when the result has
    one, otherwise the string rendering [str(result)] of the whole result,
    and [None] when the result is absent or falsy (a falsy result gives
    [None] whether or not it has an [id]). *)
Theorem message_id_policy t tr env w :
  reports_message_id t = true →
  run (invoke t) tr = (Ok env, w) →
  is_success env →
  ∃ c result,
    calls w = [c] ∧ tr c = Returns result ∧
    (py_bool result = true → ∀ v, py_attrs result !! "id" = Some v →
     env !! "message_id" = Some (VObj v)) ∧
    (py_bool result = true → py_attrs result !! "id" = None →
     env !! "message_id" = Some (VStr (py_str result))) ∧
    (py_bool result = false → env !! "message_id" = Some VNone).
Proof.
  intros Ht Hrun Hok.
  destruct (invoke_reports_extracted_id t tr Ht env w Hrun Hok)
    as (c & result & Hcalls & Htr & Hid).
  exists c, result. split; [done|]. split; [done|].
  rewrite Hid. unfold extract_message_id, getattr.
  repeat split.
  - intros -> v ->. done.
  - intros -> ->. done.
  - intros ->. done.
Qed.

Lemma message_id_policy_witness :
  ∃ c result,
    calls (MkWorld [wa_send_image "+1234567890" "https://example.com/a.png"
                      None None None]
             [(INFO, "Image sent to +1234567890")]) = [c] ∧
    returning (sent_message "wamid.1") c = Returns result ∧
    (py_bool result = true → ∀ v, py_attrs result !! "id" = Some v →
     ({[ "success" := VBool true;
         "message_id" := VObj (py_of_str "wamid.1") ]} : Envelope)
       !! "message_id" = Some (VObj v)) ∧
    (py_bool result = true → py_attrs result !! "id" = None →
     ({[ "success" := VBool true;
         "message_id" := VObj (py_of_str "wamid.1") ]} : Envelope)
       !! "message_id" = Some (VStr (py_str result))) ∧
    (py_bool result = false →
     ({[ "success" := VBool true;
         "message_id" := VObj (py_of_str "wamid.1") ]} : Envelope)
       !! "message_id" = Some VNone).
Proof.
  apply (message_id_policy
           (call_send_image "+1234567890" "https://example.com/a.png"
              None None None)
           (returning (sent_message "wamid.1"))).
  - reflexivity.
  - reflexivity.
  - reflexivity.
Defined.

(** ** The typing indicator *)

(** C10: whenever the transport call of [indicate_typing] returns, the
    handler returns [success: true] whatever the result says about itself:
    the dictionary is [{"success": True, "typing_indicated": s,
    "message_id": m}] where [s] is the result's [success] attribute, or the
    truthiness of the result when it has no such attribute, and [m] is the
    message id of the input. *)
Theorem indicate_typing_reports_return message_id sender tr result :
  tr (wa_indicate_typing message_id sender) = Returns result →
  run (indicate_typing message_id sender) tr
  = (Ok {[ "success" := VBool true;
           "typing_indicated" :=
             match py_attrs result !! "success" with
             | Some status => VObj status
             | None => VBool (py_bool result)
             end;
           "message_id" := VStr message_id ]},
     MkWorld [wa_indicate_typing message_id sender]
       [(INFO, "Typing indicator shown for message " +:+ message_id)]).
Proof.
  intros Htr. unfold_handler. rewrite Htr. reflexivity.
Qed.

Lemma indicate_typing_reports_return_witness :
  run (indicate_typing "wamid.7" None) (returning success_result_false)
  = (Ok {[ "success" := VBool true;
           "typing_indicated" := VObj (MkPyObject false "False" "bool" ∅ None);
           "message_id" := VStr "wamid.7" ]},
     MkWorld [wa_indicate_typing "wamid.7" None]
       [(INFO, "Typing indicator shown for message wamid.7")]).
Proof.
  apply (indicate_typing_reports_return "wamid.7" None
           (returning success_result_false) success_result_false).
  reflexivity.
Defined.

(** ** The recipient *)

(** C8, as stated, fails: [send_message] to the empty recipient calls the
    transport with [to=""] and, when the transport returns, reports
    success. *)
Lemma empty_recipient_reaches_transport :
  run (invoke (call_send_message "" "hello" None None None None))
    (returning (sent_message "wamid.1"))
  = (Ok {[ "success" := VBool true;
           "message_id" := VObj (py_of_str "wamid.1");
           "to" := VStr "" ]},
     MkWorld [wa_send_message "" "hello" None None None (Some false) None]
       [(INFO, "Message sent to ")]) ∧
  ¬ empty_recipient_rejected (call_send_message "" "hello" None None None None)
      (returning (sent_message "wamid.1")).
Proof.
  assert (Hrun :
    run (invoke (call_send_message "" "hello" None None None None))
      (returning (sent_message "wamid.1"))
    = (Ok {[ "success" := VBool true;
             "message_id" := VObj (py_of_str "wamid.1");
             "to" := VStr "" ]},
       MkWorld [wa_send_message "" "hello" None None None (Some false) None]
         [(INFO, "Message sent to ")])) by reflexivity.
  split; [exact Hrun|].
  intros Hclaim. destruct (Hclaim eq_refl) as (env & w & Hrun' & _ & Hcalls).
  rewrite Hrun in Hrun'. injection Hrun' as <- <-. discriminate Hcalls.
Qed.

(** The calls a handler makes do not depend on what the transport does. *)
Lemma calls_transport_independent t tr tr' :
  calls (run (invoke t) tr).2 = calls (run (invoke t) tr').2.
Proof.
  destruct t;
    try (unfold_handler;
         repeat outcome_cases;
         repeat match goal with
                | |- context [py_iter ?r] => destruct (py_iter r)
                end;
         reflexivity).
  - cbn [invoke]. rewrite !run_send_message_with_buttons.
    destruct (first_violated _); [done|].
    unfold send_and_wrap. by (outcome_cases; outcome_cases).
  - cbn [invoke]. rewrite !run_send_message_with_list.
    destruct (first_violated _); [done|].
    destruct (convert_sections sections []); [done|].
    unfold send_and_wrap. by (outcome_cases; outcome_cases).
Qed.

(** C8, as amended: no send operation validates the recipient, not even
    for non-emptiness.  Whether an operation reaches the transport does not
    depend on the recipient: the same operation to any other recipient, the
    empty string included, makes as many transport calls.  Every call it
    makes carries the recipient string unchanged, and the operations that
    do not check a payload always make their call.  What a recipient must
    look like is left entirely to the transport. *)
Theorem recipient_not_validated t to tr :
  recipient t = Some to →
  Forall (λ c, call_recipient c = Some to) (calls (run (invoke t) tr).2) ∧
  (∀ to' tr', length (calls (run (invoke (with_recipient to' t)) tr').2)
              = length (calls (run (invoke t) tr).2)) ∧
  (validates_payload t = false → length (calls (run (invoke t) tr).2) = 1).
Proof.
  intros Hto.
  destruct t; try discriminate Hto; injection Hto as ->;
    try (split; [|split; [intros to' tr'|intros _]];
         try rewrite (calls_transport_independent _ tr' tr);
         unfold_handler; cbn [with_recipient];
         repeat outcome_cases;
         cbn [calls snd length]; by repeat constructor).
  - split; [|split; [intros to' tr'|discriminate]].
    + cbn [invoke]. rewrite run_send_message_with_buttons.
      destruct (first_violated _); [by constructor|].
      unfold send_and_wrap. outcome_cases; by repeat constructor.
    + rewrite (calls_transport_independent _ tr' tr).
      cbn [invoke with_recipient]. rewrite !run_send_message_with_buttons.
      destruct (first_violated _); [done|].
      unfold send_and_wrap. by (outcome_cases; outcome_cases).
  - split; [|split; [intros to' tr'|discriminate]].
    + cbn [invoke]. rewrite run_send_message_with_list.
      destruct (first_violated _); [by constructor|].
      destruct (convert_sections sections []); [by constructor|].
      unfold send_and_wrap. outcome_cases; by repeat constructor.
    + rewrite (calls_transport_independent _ tr' tr).
      cbn [invoke with_recipient]. rewrite !run_send_message_with_list.
      destruct (first_violated _); [done|].
      destruct (convert_sections sections []); [done|].
      unfold send_and_wrap. by (outcome_cases; outcome_cases).
Qed.

Lemma recipient_not_validated_witness :
  Forall (λ c, call_recipient c = Some "")
    (calls (run (invoke (call_send_message "" "hello" None None None None))
              (returning (sent_message "wamid.1"))).2) ∧
  (∀ to' tr',
     length (calls (run (invoke (with_recipient to'
                                   (call_send_message "" "hello" None None None None)))
                      tr').2)
     = length (calls (run (invoke (call_send_message "" "hello" None None None None))
                        (returning (sent_message "wamid.1"))).2)) ∧
  (validates_payload (call_send_message "" "hello" None None None None) = false →
   length (calls (run (invoke (call_send_message "" "hello" None None None None))
                    (returning (sent_message "wamid.1"))).2) = 1).
Proof.
  apply (recipient_not_validated
           (call_send_message "" "hello" None None None None) ""
           (returning (sent_message "wamid.1"))).
  reflexivity.
Defined.

(** ** Start-up *)

(** C9, as stated, fails: a credential that is present in the environment
    with the empty string as its value is treated as missing, so with both
    variables set no client is built and no tool is registered. *)
Lemma empty_credential_is_missing :
  startup empty_phone_id server0 = (Ok tt, not_configured) ∧
  ¬ present_credentials_start empty_phone_id.
Proof.
  assert (Hrun : startup empty_phone_id server0 = (Ok tt, not_configured))
    by reflexivity.
  split; [exact Hrun|].
  intros Hclaim.
  assert (Hphone : present empty_phone_id "WHATSAPP_PHONE_ID") by (by exists "").
  assert (Htoken : present empty_phone_id "WHATSAPP_TOKEN") by (by exists "EAAGtoken").
  destruct (Hclaim Hphone Htoken) as (client & Hstart).
  rewrite Hrun in Hstart. discriminate Hstart.
Qed.

Lemma not_true_iff (v : option string) : not_ v = true ↔ v = None ∨ v = Some "".
Proof.
  destruct v as [[|c s]|]; cbn; split; try tauto; try discriminate.
  intros [?|?]; discriminate.
Qed.

Lemma register_all_tools_spec client st :
  register_all_tools client st
  = MkServer (wa_client st)
      (mcp_tools st ++ ((λ name, (name, client)) <$> all_tool_names))
      (server_log st).
Proof.
  unfold register_all_tools, register_template_tools,
    register_interactive_tools, register_messaging_tools, mcp_tool.
  cbn [foldl wa_client mcp_tools server_log all_tool_names fmap list_fmap].
  rewrite <- !app_assoc. reflexivity.
Qed.

(** C9, as amended: if either required credential is absent from the
    process environment or set to the empty string, the construction of
    the client fails at start-up with a configuration error that is
    logged; the error does not leave the start-up block, no client exists
    and no tool is registered, so no tool call can meet it.  Conversely,
    when both credentials are present and not empty, the client is built
    from them, it is the only one (asking for the client again returns it
    without building another), and all eighteen tools are registered on
    that client. *)
Theorem startup_configuration (environ : gmap string string) :
  ((absent environ "WHATSAPP_PHONE_ID" ∨ environ !! "WHATSAPP_PHONE_ID" = Some "" ∨
    absent environ "WHATSAPP_TOKEN" ∨ environ !! "WHATSAPP_TOKEN" = Some "") →
   startup environ server0 = (Ok tt, not_configured)) ∧
  (∀ phone_id token,
     environ !! "WHATSAPP_PHONE_ID" = Some phone_id → phone_id ≠ "" →
     environ !! "WHATSAPP_TOKEN" = Some token → token ≠ "" →
     startup environ server0 = (Ok tt, started (MkWhatsApp phone_id token)) ∧
     length (mcp_tools (started (MkWhatsApp phone_id token))) = 18 ∧
     ∀ environ',
       get_whatsapp_client environ' (started (MkWhatsApp phone_id token))
       = (Ok (MkWhatsApp phone_id token), started (MkWhatsApp phone_id token))).
Proof.
  split.
  - intros Hmissing.
    assert (Hnot : not_ (getenv environ "WHATSAPP_PHONE_ID")
                   || not_ (getenv environ "WHATSAPP_TOKEN") = true).
    { apply orb_true_iff. rewrite !not_true_iff. unfold absent, getenv in *. tauto. }
    unfold startup, get_whatsapp_client. cbn [wa_client server0]. cbv zeta.
    rewrite Hnot. reflexivity.
  - intros phone_id token Hphone Hne_phone Htoken Hne_token.
    split; [|split; [reflexivity|done]].
    unfold startup, get_whatsapp_client, getenv. cbn [wa_client server0]. cbv zeta.
    rewrite Hphone, Htoken.
    destruct phone_id as [|c1 s1]; [done|]. destruct token as [|c2 s2]; [done|].
    cbn [not_ String.eqb orb default from_option Datatypes.id].
    rewrite register_all_tools_spec. reflexivity.
Qed.

Lemma startup_configuration_witness :
  startup (delete "WHATSAPP_TOKEN" configured) server0 = (Ok tt, not_configured) ∧
  startup configured server0 = (Ok tt, started (MkWhatsApp "1055501234" "EAAGtoken")).
Proof.
  split.
  - apply (proj1 (startup_configuration (delete "WHATSAPP_TOKEN" configured))).
    right. right. left. reflexivity.
  - apply (proj2 (startup_configuration configured) "1055501234" "EAAGtoken");
      (reflexivity || discriminate).
Defined.

(** Every tool the host can invoke is one of the registered names. *)
Lemma tool_name_registered t : tool_name t ∈ all_tool_names.
Proof.
  destruct t; cbn [tool_name all_tool_names];
    repeat (first [apply list_elem_of_here | apply list_elem_of_further]).
Qed.

(** ** Concrete runs *)

Example four_buttons_rejected :
  run (send_message_with_buttons "+1234567890" "Choose" four_buttons None None None)
    (returning (sent_message "wamid.1"))
  = (Ok (failure "Maximum 3 buttons allowed"), world0).
Proof. reflexivity. Qed.

Example long_row_title_rejected :
  run (send_message_with_list "+1234567890" "Choose" "Menu"
         [ MkSectionData (Some "A")
             (Some [ {[ "id" := "r1"; "title" := "TTTTTTTTTTTTTTTTTTTTTTTTT" ]} ]) ]
         None None None)
    (returning (sent_message "wamid.1"))
  = (Ok (failure "Row title 'TTTTTTTTTTTTTTTTTTTTTTTTT' exceeds 24 characters"),
     world0).
Proof. reflexivity. Qed.

Example falsy_result_gives_none :
  (run (send_audio "+1234567890" "media-id" None) (returning py_None)).1
  = Ok {[ "success" := VBool true; "message_id" := VNone ]}.
Proof. reflexivity. Qed.

Example string_result_is_rendered :
  (run (send_audio "+1234567890" "media-id" None)
     (returning (py_of_str "wamid.9"))).1
  = Ok {[ "success" := VBool true; "message_id" := VStr "wamid.9" ]}.
Proof. reflexivity. Qed.

Example string_result_is_iterated :
  (run (get_templates 100 None) (returning (py_of_str "ab"))).1
  = Ok {[ "success" := VBool true;
          "templates" :=
            VList [ template_data (MkPyObject true "a" "str" ∅ None);
                    template_data (MkPyObject true "b" "str" ∅ None) ];
          "count" := VInt 2 ]}.
Proof. reflexivity. Qed.

Example not_iterable_templates :
  (run (get_templates 100 None) (returning py_None)).1
  = Ok (failure "'NoneType' object is not iterable").
Proof. reflexivity. Qed.

(** * Further properties of the handlers *)

(** ** Calls, exceptions and success *)

(** X1: no handler retries or makes a second call: every tool call makes
    at most one call of the transport, whatever the transport does. *)
Theorem at_most_one_transport_call t tr :
  (length (calls (run (invoke t) tr).2) ≤ 1)%nat.
Proof. destruct (invoke_ending t tr); cbn; lia. Qed.

(** X2: when the transport call of a handler raises an instance [e] of
    [Exception], the handler returns exactly
    [{"success": False, "error": str(e)}], it has made that one call and no
    other, and it has logged one record, at level ERROR, that ends in
    [": " + str(e)]. *)
Theorem transport_exception_reported t tr c e :
  c ∈ calls (run (invoke t) tr).2 →
  tr c = Raises e →
  is_exception e = true →
  ∃ what,
    run (invoke t) tr
    = (Ok (failure (exc_str e)),
       MkWorld [c] [(ERROR, what +:+ ": " +:+ exc_str e)]).
Proof.
  destruct (invoke_ending t tr)
    as [msg ?|c' ? ? ? Hret|c' e' what Hraise Hclass|c' ? ? ? ? Hret
        |c' e' Hraise Hclass];
    cbn [calls snd].
  - by intros ?%elem_of_nil.
  - intros ->%list_elem_of_singleton. congruence.
  - intros ->%list_elem_of_singleton Hc _. rewrite Hraise in Hc.
    injection Hc as ->. by exists what.
  - intros ->%list_elem_of_singleton. congruence.
  - intros ->%list_elem_of_singleton Hc He. rewrite Hraise in Hc.
    injection Hc as ->. congruence.
Qed.

Lemma transport_exception_reported_witness :
  ∃ what,
    run (invoke (call_send_sticker "+1234567890" "media-id" None))
      (raising (MkPyExc (OtherException "WhatsAppError") "Invalid parameter"))
    = (Ok (failure "Invalid parameter"),
       MkWorld [wa_send_sticker "+1234567890" "media-id" None]
         [(ERROR, what +:+ ": " +:+ "Invalid parameter")]).
Proof.
  apply (transport_exception_reported
           (call_send_sticker "+1234567890" "media-id" None)
           (raising (MkPyExc (OtherException "WhatsAppError") "Invalid parameter"))
           (wa_send_sticker "+1234567890" "media-id" None)
           (MkPyExc (OtherException "WhatsAppError") "Invalid parameter")).
  - apply list_elem_of_singleton. reflexivity.
  - reflexivity.
  - reflexivity.
Defined.

(** X3: a handler reports success exactly when its transport call
    returned (and, for [get_templates], returned something iterable): the
    top-level [success] says nothing about what the result contains.  A
    success dictionary has no [error] key, and a successful run has logged
    exactly one record, at level INFO. *)
Theorem success_iff_transport_returned t tr env w :
  run (invoke t) tr = (Ok env, w) →
  (is_success env ↔
   ∃ c result, calls w = [c] ∧ tr c = Returns result ∧
               (iterates_result t = true → is_Some (py_iter result))) ∧
  (is_success env →
   env !! "error" = None ∧ ∃ info, logged w = [(INFO, info)]).
Proof.
  destruct (invoke_ending t tr)
    as [msg ?|c result env' info Hret Hiter Hok Herr|c e what Hraise Hclass
        |c result what msg Hit Hret Hiter ?|c e Hraise Hclass];
    intros [= <- <-]; cbn [calls logged].
  - split.
    + split; [by intros ?%failure_not_success|]. by intros (? & ? & [=] & _).
    + by intros ?%failure_not_success.
  - split.
    + split; [|done]. intros _. by exists c, result.
    + intros _. split; [done|]. by exists info.
  - split.
    + split; [by intros ?%failure_not_success|].
      intros (? & ? & [= <-] & ? & _). congruence.
    + by intros ?%failure_not_success.
  - split.
    + split; [by intros ?%failure_not_success|].
      intros (? & result' & [= <-] & Hret' & Hsome).
      rewrite Hret in Hret'. injection Hret' as <-.
      specialize (Hsome Hit). rewrite Hiter in Hsome. by destruct Hsome.
    + by intros ?%failure_not_success.
Qed.

Lemma success_iff_transport_returned_witness :
  (is_success {[ "success" := VBool true; "result" := VNone ]} ↔
   ∃ c result,
     calls (MkWorld [wa_mark_message_as_read "wamid.7" None]
              [(INFO, "Message wamid.7 marked as read")]) = [c] ∧
     returning py_None c = Returns result ∧
     (iterates_result (call_mark_message_as_read "wamid.7" None) = true →
      is_Some (py_iter result))) ∧
  (is_success {[ "success" := VBool true; "result" := VNone ]} →
   ({[ "success" := VBool true; "result" := VNone ]} : Envelope) !! "error" = None ∧
   ∃ info,
     logged (MkWorld [wa_mark_message_as_read "wamid.7" None]
               [(INFO, "Message wamid.7 marked as read")]) = [(INFO, info)]).
Proof.
  apply (success_iff_transport_returned
           (call_mark_message_as_read "wamid.7" None) (returning py_None)).
  reflexivity.
Defined.

(** ** The checks of a list message *)

Lemma first_violated_concat_none {A} (f : A → list (bool * string)) l :
  first_violated (concat (f <$> l)) = None ↔
  Forall (λ x, first_violated (f x) = None) l.
Proof.
  induction l as [|x l IH]; cbn [fmap list_fmap concat].
  { split; [constructor|done]. }
  rewrite first_violated_app, Forall_cons.
  destruct (first_violated (f x)); [|tauto].
  split; [discriminate|]. by intros [[=] _].
Qed.

Lemma longer_than_within n s : longer_than n s = false → within n s.
Proof.
  destruct s as [s|]; cbn; [|done]. intros H%bool_decide_eq_false. lia.
Qed.

(** The loop over the rows stops at the first violated check and otherwise
    appends the normalized rows in order. *)
Lemma convert_rows_checks rows_data rows :
  convert_rows rows_data rows =
  match first_violated (concat (row_checks <$> rows_data)) with
  | Some msg => inl (failure msg)
  | None => inr (rows ++ (normalize_row <$> rows_data))%list
  end.
Proof.
  revert rows.
  induction rows_data as [|row_data rest IH]; intros acc.
  { cbn. by rewrite app_nil_r. }
  cbn [convert_rows fmap list_fmap concat].
  rewrite first_violated_app. unfold row_checks at 1, normalize_row at 1.
  destruct (row_data !! "id") as [id|], (row_data !! "title") as [title|];
    cbn [default from_option Datatypes.id first_violated];
    try (rewrite bool_decide_eq_true_2; [done|tauto]).
  rewrite (bool_decide_eq_false_2 (Some id = None ∨ Some title = None))
    by (intros [?|?]; discriminate).
  destruct (bool_decide (200 < len id)); [done|].
  destruct (bool_decide (24 < len title)); [done|].
  cbv zeta.
  destruct (bool_decide (72 < len (default "" (row_data !! "description"))));
    [done|].
  rewrite IH, <- app_assoc.
  by destruct (row_data !! "description") as [[|c d]|].
Qed.

(** The loop over the sections stops at the first violated check and
    otherwise appends a section object for every section that has rows. *)
Lemma convert_sections_checks sections section_objects :
  convert_sections sections section_objects =
  match first_violated (concat (section_checks <$> sections)) with
  | Some msg => inl (failure msg)
  | None => inr (section_objects ++ omap normalize_section sections)%list
  end.
Proof.
  revert section_objects.
  induction sections as [|section_data rest IH]; intros acc.
  { cbn. by rewrite app_nil_r. }
  cbn [convert_sections fmap list_fmap concat].
  unfold omap; cbn [list_omap]; fold (omap normalize_section rest).
  rewrite first_violated_app.
  unfold section_checks at 1, normalize_section at 1.
  destruct (sd_rows section_data) as [rows_data|];
    cbn [default from_option Datatypes.id app first_violated];
    [|by rewrite bool_decide_eq_true_2].
  rewrite (bool_decide_eq_false_2 (Some rows_data = None)) by discriminate.
  cbv zeta.
  destruct (bool_decide (24 < len (default "" (sd_title section_data)))); [done|].
  rewrite convert_rows_checks.
  destruct (first_violated (concat (row_checks <$> rows_data))); [done|].
  cbn [app]. rewrite IH.
  destruct rows_data as [|row_data more]; cbn [fmap list_fmap]; [done|].
  by rewrite <- app_assoc.
Qed.

(** X4: on a payload of the documented shape (sections with an optional
    string title and an optional array of rows whose values are strings),
    [send_message_with_list] makes its checks in the fixed order of
    [list_message_checks]: more than 10 sections, a button text longer than
    20, header and footer longer than 60, more than 10 raw rows in total,
    and then section by section a missing ['rows'] key, a section title
    longer than 24 (absent: empty), and row by row a missing key, an id
    longer than 200, a title longer than 24, a description longer than 72
    (absent: empty).  The first violated check decides the error and the
    transport is not called; when none is violated the one transport call
    carries the normalized sections that have rows. *)
Theorem list_validation_order to text button_text sections header footer reply tr :
  match first_violated (list_message_checks button_text sections header footer) with
  | Some msg =>
    run (send_message_with_list to text button_text sections header footer reply) tr
    = (Ok (failure msg), world0)
  | None =>
    calls (run (send_message_with_list to text button_text sections header
                  footer reply) tr).2
    = [wa_send_message to text header footer
         (Some (ListObject (MkSectionList button_text
                              (omap normalize_section sections)))) None reply]
  end.
Proof.
  rewrite run_send_message_with_list. unfold list_message_checks.
  rewrite first_violated_app.
  destruct (first_violated [_; _; _; _; _]); [done|].
  rewrite convert_sections_checks.
  destruct (first_violated (concat (section_checks <$> sections))); [done|].
  unfold send_and_wrap. by outcome_cases.
Qed.

(** ** What reaches the transport is within the limits *)

Lemma button_checks_none btn :
  first_violated (button_checks btn) = None →
  button_within_limits (normalize_button btn).
Proof.
  unfold button_checks, button_within_limits, normalize_button.
  cbn [first_violated btn_title btn_callback_data].
  repeat case_bool_decide; try discriminate. intros _. lia.
Qed.

(** X5: whatever [send_message_with_buttons] hands to the transport is
    within the limits of a button message: at most 3 buttons, as many as
    the payload has, each with a title of at most 20 and callback data of
    at most 256 characters, and a header and a footer of at most 60
    characters when present. *)
Theorem buttons_sent_within_limits to text buttons header footer reply tr c :
  c ∈ calls (run (send_message_with_buttons to text buttons header footer
                    reply) tr).2 →
  ∃ button_objects,
    button_objects_of c = Some button_objects ∧
    (length button_objects ≤ 3)%nat ∧
    length button_objects = length buttons ∧
    Forall button_within_limits button_objects ∧
    header_footer_of c = Some (header, footer) ∧
    within 60 header ∧ within 60 footer.
Proof.
  rewrite run_send_message_with_buttons. unfold button_message_checks.
  cbn [app first_violated].
  case_bool_decide as Hlen; [by intros ?%elem_of_nil|].
  destruct (longer_than 60 header) eqn:Hheader; [by intros ?%elem_of_nil|].
  destruct (longer_than 60 footer) eqn:Hfooter; [by intros ?%elem_of_nil|].
  destruct (first_violated (concat (button_checks <$> buttons))) eqn:Hchecks;
    [by intros ?%elem_of_nil|].
  intros Hc. exists (normalize_button <$> buttons).
  assert (c = wa_send_message to text header footer
                (Some (ButtonObjects (normalize_button <$> buttons))) None reply)
    as ->.
  { unfold send_and_wrap in Hc.
    by outcome_cases in Hc; apply list_elem_of_singleton in Hc. }
  rewrite length_fmap. repeat split; try done; try lia.
  - apply Forall_fmap. apply first_violated_concat_none in Hchecks.
    eapply Forall_impl; [exact Hchecks|]. apply button_checks_none.
  - by apply longer_than_within.
  - by apply longer_than_within.
Qed.

Lemma buttons_sent_within_limits_witness :
  ∃ button_objects,
    button_objects_of
      (wa_send_message "+1234567890" "Choose" None None
         (Some (ButtonObjects [MkButton "Yes" "o1"; MkButton "No" "o2"]))
         None None) = Some button_objects ∧
    (length button_objects ≤ 3)%nat ∧
    length button_objects = length yes_no_buttons ∧
    Forall button_within_limits button_objects ∧
    header_footer_of
      (wa_send_message "+1234567890" "Choose" None None
         (Some (ButtonObjects [MkButton "Yes" "o1"; MkButton "No" "o2"]))
         None None) = Some (None, None) ∧
    within 60 None ∧ within 60 None.
Proof.
  apply (buttons_sent_within_limits "+1234567890" "Choose" yes_no_buttons
           None None None (returning (sent_message "wamid.1"))).
  apply list_elem_of_singleton. reflexivity.
Defined.

Lemma row_checks_none row_data :
  first_violated (row_checks row_data) = None →
  row_within_limits (normalize_row row_data).
Proof.
  unfold row_checks, row_within_limits, normalize_row.
  cbn [first_violated row_title row_callback_data row_description].
  repeat case_bool_decide; try discriminate. intros _.
  split; [lia|]. split; [lia|].
  destruct (row_data !! "description") as [[|ch d]|]; [done| |done].
  cbn [default from_option Datatypes.id] in *. unfold len in *. cbn in *. lia.
Qed.

Lemma section_checks_none section_data sec :
  first_violated (section_checks section_data) = None →
  normalize_section section_data = Some sec →
  (len (sec_title sec) ≤ 24)%nat ∧ sec_rows sec ≠ [] ∧
  Forall row_within_limits (sec_rows sec).
Proof.
  unfold section_checks, normalize_section.
  cbn [app first_violated].
  case_bool_decide; [discriminate|]. case_bool_decide; [discriminate|].
  intros Hrows%first_violated_concat_none.
  destruct (default [] (sd_rows section_data)) as [|row_data more];
    [discriminate|].
  intros [= <-]. cbn [sec_title sec_rows]. split; [lia|]. split; [done|].
  apply (Forall_fmap normalize_row row_within_limits (row_data :: more)).
  eapply Forall_impl; [exact Hrows|]. apply row_checks_none.
Qed.

Lemma length_omap_le {A B} (f : A → option B) l :
  (length (omap f l) ≤ length l)%nat.
Proof.
  induction l as [|x l IH]; [done|].
  unfold omap; cbn [list_omap]; fold (omap f l).
  destruct (f x); cbn [length]; lia.
Qed.

(** No row is lost, added or moved: the rows of the section objects are
    the normalized raw rows, in order. *)
Lemma sent_rows_normalized sections :
  sent_rows (omap normalize_section sections)
  = normalize_row <$> raw_rows sections.
Proof.
  unfold sent_rows, raw_rows.
  induction sections as [|section_data rest IH]; [done|].
  unfold omap; cbn [list_omap]; fold (omap normalize_section rest).
  cbn [fmap list_fmap concat]. rewrite fmap_app, <- IH.
  unfold normalize_section.
  by destruct (default [] (sd_rows section_data)).
Qed.

Lemma length_raw_rows sections :
  length (raw_rows sections) = total_row_count sections.
Proof.
  unfold raw_rows, total_row_count.
  induction sections as [|section_data rest IH]; [done|].
  cbn [fmap list_fmap concat sum_list]. by rewrite length_app, IH.
Qed.

(** X6: whatever [send_message_with_list] hands to the transport is within
    the limits of a list message: a button title of at most 20 characters,
    at most 10 sections and 10 rows in all, every section with a title of
    at most 24 characters and with at least one row, every row with a
    title of at most 24, callback data of at most 200 and a description
    that is absent or of 1 to 72 characters, and a header and a footer of
    at most 60 characters when present. *)
Theorem list_sent_within_limits to text button_text sections header footer reply tr c :
  c ∈ calls (run (send_message_with_list to text button_text sections header
                    footer reply) tr).2 →
  ∃ sl,
    section_list_of c = Some sl ∧
    section_list_within_limits sl ∧
    header_footer_of c = Some (header, footer) ∧
    within 60 header ∧ within 60 footer.
Proof.
  rewrite run_send_message_with_list. cbn [first_violated].
  case_bool_decide as Hsections; [by intros ?%elem_of_nil|].
  case_bool_decide as Hbutton; [by intros ?%elem_of_nil|].
  destruct (longer_than 60 header) eqn:Hheader; [by intros ?%elem_of_nil|].
  destruct (longer_than 60 footer) eqn:Hfooter; [by intros ?%elem_of_nil|].
  case_bool_decide as Htotal; [by intros ?%elem_of_nil|].
  rewrite convert_sections_checks.
  destruct (first_violated (concat (section_checks <$> sections))) eqn:Hchecks;
    [by intros ?%elem_of_nil|].
  cbn [app]. intros Hc.
  assert (c = wa_send_message to text header footer
                (Some (ListObject (MkSectionList button_text
                                     (omap normalize_section sections))))
                None reply) as ->.
  { unfold send_and_wrap in Hc.
    by outcome_cases in Hc; apply list_elem_of_singleton in Hc. }
  apply first_violated_concat_none in Hchecks.
  eexists. split; [reflexivity|].
  split; [|by auto using longer_than_within].
  unfold section_list_within_limits. cbn [sl_button_title sl_sections].
  split; [lia|]. split.
  { pose proof (length_omap_le normalize_section sections). lia. }
  split.
  { rewrite sent_rows_normalized, length_fmap, length_raw_rows. lia. }
  apply Forall_forall. intros sec (section_data & Hin & Hsec)%list_elem_of_omap.
  eapply section_checks_none; [|exact Hsec].
  by eapply Forall_forall in Hchecks.
Qed.

Lemma list_sent_within_limits_witness :
  ∃ sl,
    section_list_of
      (wa_send_message "+1234567890" "Choose" None None
         (Some (ListObject
                  (MkSectionList "View Menu"
                     [MkSection "Drinks"
                        [MkSectionRow "Coca Cola" "coke" (Some "Cold refreshing drink");
                         MkSectionRow "Water" "water" None]])))
         None None) = Some sl ∧
    section_list_within_limits sl ∧
    header_footer_of
      (wa_send_message "+1234567890" "Choose" None None
         (Some (ListObject
                  (MkSectionList "View Menu"
                     [MkSection "Drinks"
                        [MkSectionRow "Coca Cola" "coke" (Some "Cold refreshing drink");
                         MkSectionRow "Water" "water" None]])))
         None None) = Some (None, None) ∧
    within 60 None ∧ within 60 None.
Proof.
  apply (list_sent_within_limits "+1234567890" "Choose" "View Menu"
           one_empty_one_full None None None (returning (sent_message "wamid.1"))).
  apply list_elem_of_singleton. reflexivity.
Defined.

(** ** Valid list messages reach the transport *)

Lemma well_formed_row_checks row_data :
  well_formed_row row_data → first_violated (row_checks row_data) = None.
Proof.
  intros (id & title & Hid & Htitle & ? & ? & ?).
  unfold row_checks. rewrite Hid, Htitle.
  cbn [default from_option Datatypes.id first_violated].
  rewrite (bool_decide_eq_false_2 (Some id = None ∨ Some title = None))
    by (intros [?|?]; discriminate).
  by rewrite !bool_decide_eq_false_2 by lia.
Qed.

Lemma well_formed_section_checks section_data :
  well_formed_section section_data →
  first_violated (section_checks section_data) = None.
Proof.
  intros (Htitle & rows_data & Hrows & Hwf).
  unfold section_checks. rewrite Hrows.
  cbn [app first_violated default from_option Datatypes.id].
  rewrite (bool_decide_eq_false_2 (Some rows_data = None)) by discriminate.
  rewrite bool_decide_eq_false_2 by lia.
  apply first_violated_concat_none.
  eapply Forall_impl; [exact Hwf|]. apply well_formed_row_checks.
Qed.

Lemma well_formed_list_checks button_text sections header footer :
  (length sections ≤ 10)%nat → (len button_text ≤ 20)%nat →
  within 60 header → within 60 footer →
  (total_row_count sections ≤ 10)%nat →
  Forall well_formed_section sections →
  first_violated (list_message_checks button_text sections header footer) = None.
Proof.
  intros ? ? ? ? ? Hwf. unfold list_message_checks.
  rewrite first_violated_app. cbn [first_violated].
  rewrite !within_longer_than by done.
  rewrite !bool_decide_eq_false_2 by lia.
  apply first_violated_concat_none.
  eapply Forall_impl; [exact Hwf|]. apply well_formed_section_checks.
Qed.

(** [send_message_with_list] when no check is violated. *)
Lemma run_send_message_with_list_valid to text button_text sections header footer reply tr :
  first_violated (list_message_checks button_text sections header footer) = None →
  run (send_message_with_list to text button_text sections header footer reply) tr
  = send_and_wrap tr
      (wa_send_message to text header footer
         (Some (ListObject (MkSectionList button_text
                              (omap normalize_section sections)))) None reply)
      ("Message with list sent to " +:+ to)
      "Failed to send message with list"
      (λ result, {[ "success" := VBool true;
                    "message_id" := extract_message_id result ]}).
Proof.
  unfold list_message_checks. rewrite first_violated_app.
  rewrite run_send_message_with_list, convert_sections_checks.
  destruct (first_violated [_; _; _; _; _]); [discriminate|].
  by intros ->.
Qed.

Lemma well_formed_row_of row_data :
  well_formed_row row_data → row_of row_data (normalize_row row_data).
Proof.
  intros (id & title & Hid & Htitle & _). unfold row_of, normalize_row.
  cbn [row_title row_callback_data row_description].
  rewrite Hid, Htitle. by repeat split.
Qed.

Lemma well_formed_sections_of sections :
  Forall well_formed_section sections →
  Forall2 section_of (filter has_rows sections) (omap normalize_section sections).
Proof.
  induction 1 as [|section_data rest (Htitle & rows_data & Hrows & Hwf) _ IH].
  { constructor. }
  unfold omap; cbn [list_omap]; fold (omap normalize_section rest).
  unfold normalize_section at 1. rewrite Hrows.
  cbn [default from_option Datatypes.id].
  destruct rows_data as [|row_data more].
  - rewrite filter_cons_False; [exact IH|].
    unfold has_rows. rewrite Hrows. by intros [].
  - rewrite filter_cons_True by (unfold has_rows; by rewrite Hrows).
    constructor; [|exact IH]. split; [done|].
    rewrite Hrows. cbn [sec_rows default from_option Datatypes.id].
    change (Forall2 row_of (row_data :: more)
              (normalize_row <$> row_data :: more)).
    apply Forall2_fmap_r, Forall_Forall2_diag.
    eapply Forall_impl; [exact Hwf|]. apply well_formed_row_of.
Qed.

(** X7: a list payload within all limits (at most 10 sections and 10 raw
    rows, button text of at most 20, header and footer of at most 60, every
    section with a ['rows'] array and a title of at most 24, every row
    well formed) makes [send_message_with_list] call the transport exactly
    once, with the button text and with one section object for every
    section of the payload that has rows, in the order of the payload.  A
    section object has the title of its section (the empty string when the
    section has none) and one row object for each of its rows, in order,
    with the row's id as callback data, its title, and its description or
    [None] when that is absent or empty.  When the transport returns, the
    result is [{"success": True, "message_id": ..}] with the [id]
    attribute of the result, or its string rendering when it has none, or
    [None] when the result is falsy. *)
Theorem valid_list_sent to text button_text sections header footer reply tr :
  (length sections ≤ 10)%nat →
  (len button_text ≤ 20)%nat →
  within 60 header →
  within 60 footer →
  (total_row_count sections ≤ 10)%nat →
  Forall well_formed_section sections →
  ∃ section_objects,
    Forall2 section_of (filter has_rows sections) section_objects ∧
    calls (run (send_message_with_list to text button_text sections header
                  footer reply) tr).2
    = [wa_send_message to text header footer
         (Some (ListObject (MkSectionList button_text section_objects)))
         None reply] ∧
    ∀ result,
      tr (wa_send_message to text header footer
            (Some (ListObject (MkSectionList button_text section_objects)))
            None reply) = Returns result →
      (run (send_message_with_list to text button_text sections header footer
              reply) tr).1
      = Ok {[ "success" := VBool true;
              "message_id" :=
                if py_bool result then
                  match py_attrs result !! "id" with
                  | Some id => VObj id
                  | None => VStr (py_str result)
                  end
                else VNone ]}.
Proof.
  intros ? ? ? ? ? Hwf.
  exists (omap normalize_section sections).
  split; [by apply well_formed_sections_of|].
  rewrite run_send_message_with_list_valid
    by by apply well_formed_list_checks.
  unfold send_and_wrap. split.
  - by outcome_cases.
  - by intros result ->.
Qed.

Lemma valid_list_sent_witness :
  ∃ section_objects,
    Forall2 section_of (filter has_rows one_empty_one_full) section_objects ∧
    calls (run (send_message_with_list "+1234567890" "Choose" "View Menu"
                  one_empty_one_full None None None)
             (returning py_None)).2
    = [wa_send_message "+1234567890" "Choose" None None
         (Some (ListObject (MkSectionList "View Menu" section_objects)))
         None None] ∧
    (run (send_message_with_list "+1234567890" "Choose" "View Menu"
            one_empty_one_full None None None)
       (returning py_None)).1
    = Ok {[ "success" := VBool true; "message_id" := VNone ]}.
Proof.
  destruct (valid_list_sent "+1234567890" "Choose" "View Menu" one_empty_one_full
              None None None (returning py_None))
    as (section_objects & Hof & Hcalls & Hret).
  - cbn. lia.
  - cbn. lia.
  - exact I.
  - exact I.
  - vm_compute. lia.
  - apply Forall_cons; split.
    { split; [cbn; lia|]. exists []. split; [reflexivity|constructor]. }
    apply Forall_singleton. split; [cbn; lia|].
    eexists. split; [reflexivity|].
    apply Forall_cons; split.
    { exists "coke", "Coca Cola".
      split; [reflexivity|]. split; [reflexivity|]. vm_compute. lia. }
    apply Forall_singleton. exists "water", "Water".
    split; [reflexivity|]. split; [reflexivity|]. vm_compute. lia.
  - exists section_objects. split; [exact Hof|]. split; [exact Hcalls|].
    rewrite (Hret py_None eq_refl). reflexivity.
Defined.

(** X8: a list payload of at most 10 sections in which every section has a
    ['rows'] array that is empty and a title of at most 24 characters (the
    payload without any section included), with a button text of at most
    20 and a header and a footer of at most 60 characters, is not rejected
    for having no row: the transport is called with a section list that
    has no section. *)
Theorem rowless_list_sent_empty to text button_text sections header footer reply tr :
  (length sections ≤ 10)%nat →
  (len button_text ≤ 20)%nat →
  within 60 header →
  within 60 footer →
  Forall (λ section_data,
            sd_rows section_data = Some [] ∧
            (len (default "" (sd_title section_data)) ≤ 24)%nat) sections →
  calls (run (send_message_with_list to text button_text sections header footer
                reply) tr).2
  = [wa_send_message to text header footer
       (Some (ListObject (MkSectionList button_text []))) None reply].
Proof.
  intros Hlen ? ? ? Hrowless.
  assert (Hnone : omap normalize_section sections = []).
  { clear Hlen.
    induction Hrowless as [|section_data rest [Hrows _] _ IH]; [done|].
    unfold omap; cbn [list_omap]; fold (omap normalize_section rest).
    unfold normalize_section at 1. rewrite Hrows. exact IH. }
  assert (Htotal : total_row_count sections = 0).
  { clear Hlen Hnone. rewrite <- length_raw_rows. unfold raw_rows.
    induction Hrowless as [|section_data rest [Hrows _] _ IH]; [done|].
    cbn [fmap list_fmap concat]. by rewrite Hrows. }
  rewrite run_send_message_with_list_valid.
  - rewrite Hnone. unfold send_and_wrap. by outcome_cases.
  - apply well_formed_list_checks; try done; [lia|].
    eapply Forall_impl; [exact Hrowless|].
    intros section_data [Hrows Htitle]. split; [done|].
    exists []. by split; [|constructor].
Qed.

Lemma rowless_list_sent_empty_witness :
  calls (run (send_message_with_list "+1234567890" "Choose" "Menu"
                [MkSectionData None (Some []); MkSectionData (Some "B") (Some [])]
                None None None) (returning (sent_message "wamid.1"))).2
  = [wa_send_message "+1234567890" "Choose" None None
       (Some (ListObject (MkSectionList "Menu" []))) None None].
Proof.
  apply (rowless_list_sent_empty "+1234567890" "Choose" "Menu"
           [MkSectionData None (Some []); MkSectionData (Some "B") (Some [])]
           None None None (returning (sent_message "wamid.1"))).
  - cbn. lia.
  - cbn. lia.
  - exact I.
  - exact I.
  - repeat (apply Forall_cons; split; [split; [reflexivity|cbn; lia]|]).
    constructor.
Defined.

(** ** What the other handlers report *)

(** X9: the three handlers that report under ["result"]
    ([send_reaction], [remove_reaction], [mark_message_as_read]) never read
    an identifier from what the transport returned: the ["result"] of a
    success dictionary is the string rendering [str(result)] of a truthy
    result and [None] for a falsy one, and the dictionary has no
    ["message_id"]. *)
Theorem result_is_rendering t tr env w :
  reports_result t = true →
  run (invoke t) tr = (Ok env, w) →
  is_success env →
  ∃ c result,
    calls w = [c] ∧ tr c = Returns result ∧
    env !! "result"
    = Some (if py_bool result then VStr (py_str result) else VNone) ∧
    env !! "message_id" = None.
Proof.
  intros Ht.
  destruct t; try discriminate Ht; unfold_handler;
    (transport_cases r e E; intros [= <- <-] Hok;
     [ eexists _, r;
       split; [reflexivity|split; [exact E|split; reflexivity]]
     | by apply failure_not_success in Hok ]).
Qed.

Lemma result_is_rendering_witness :
  ∃ c result,
    calls (MkWorld [wa_send_reaction "+1234567890" ":)" "wamid.7" None]
             [(INFO, "Reaction sent to message wamid.7")]) = [c] ∧
    returning (sent_message "wamid.8") c = Returns result ∧
    ({[ "success" := VBool true;
        "result" := VStr "SentMessage(id='wamid.8')" ]} : Envelope) !! "result"
    = Some (if py_bool result then VStr (py_str result) else VNone) ∧
    ({[ "success" := VBool true;
        "result" := VStr "SentMessage(id='wamid.8')" ]} : Envelope) !! "message_id"
    = None.
Proof.
  apply (result_is_rendering
           (call_send_reaction "+1234567890" ":)" "wamid.7" None)
           (returning (sent_message "wamid.8"))).
  - reflexivity.
  - reflexivity.
  - reflexivity.
Defined.

(** X10: [upload_media] makes no truthiness test on what the transport
    returned: whenever the call returns, also with [None] or another falsy
    object, the handler reports success, and ["media_id"] is the string
    rendering of the result (never [None]) and ["media_type"] the name of
    its type. *)
Theorem upload_media_reports_rendering media_path mime_type tr result :
  tr (wa_upload_media media_path mime_type) = Returns result →
  run (upload_media media_path mime_type) tr
  = (Ok {[ "success" := VBool true;
           "media_id" := VStr (py_str result);
           "media_type" := VStr (py_type result) ]},
     MkWorld [wa_upload_media media_path mime_type]
       [(INFO, "Media uploaded successfully")]).
Proof. intros Htr. unfold_handler. by rewrite Htr. Qed.

Lemma upload_media_reports_rendering_witness :
  run (upload_media "/tmp/photo.jpg" None) (returning py_None)
  = (Ok {[ "success" := VBool true;
           "media_id" := VStr "None";
           "media_type" := VStr "NoneType" ]},
     MkWorld [wa_upload_media "/tmp/photo.jpg" None]
       [(INFO, "Media uploaded successfully")]).
Proof.
  apply (upload_media_reports_rendering "/tmp/photo.jpg" None
           (returning py_None) py_None).
  reflexivity.
Defined.

(** ** The template listing *)

Lemma template_data_dict template :
  ∃ d, template_data template = VDict d ∧ dom d = template_keys ∧
       ∀ key, key ∈ template_keys →
              d !! key = Some (getattr template key (VStr "")).
Proof.
  eexists. split; [reflexivity|]. split.
  - unfold template_keys. rewrite !dom_insert_L, dom_singleton_L. set_solver.
  - unfold template_keys. intros key Hkey.
    repeat (apply elem_of_union in Hkey as [Hkey|Hkey]);
      apply elem_of_singleton in Hkey as ->; reflexivity.
Qed.

(** X11: when the transport returns an iterable, [get_templates] reports
    success with one dictionary per template, in the order of the
    iteration, and with ["count"] the number of dictionaries.  Every
    dictionary has exactly the keys [id], [name], [language], [status] and
    [category], each holding the attribute of that name or the empty
    string when the template has no such attribute. *)
Theorem templates_projected limit name tr result items :
  tr (wa_get_templates limit name) = Returns result →
  py_iter result = Some items →
  (run (get_templates limit name) tr).1
  = Ok {[ "success" := VBool true;
          "templates" := VList (template_data <$> items);
          "count" := VInt (Z.of_nat (length items)) ]} ∧
  Forall (λ template,
            ∃ d, template_data template = VDict d ∧ dom d = template_keys ∧
                 ∀ key, key ∈ template_keys →
                        d !! key = Some (getattr template key (VStr "")))
    items.
Proof.
  intros Htr Hiter. split.
  - unfold_handler. rewrite Htr, Hiter. unfold_handler.
    by rewrite length_fmap.
  - apply Forall_forall. intros template _. apply template_data_dict.
Qed.

Lemma templates_projected_witness :
  (run (get_templates 100 None)
     (returning
        (MkPyObject true "[Template]" "list" ∅
           (Some [MkPyObject true "Template" "Template"
                    {[ "name" := py_of_str "welcome" ]} None])))).1
  = Ok {[ "success" := VBool true;
          "templates" :=
            VList (template_data <$>
                     [MkPyObject true "Template" "Template"
                        {[ "name" := py_of_str "welcome" ]} None]);
          "count" := VInt (Z.of_nat 1) ]} ∧
  Forall (λ template,
            ∃ d, template_data template = VDict d ∧ dom d = template_keys ∧
                 ∀ key, key ∈ template_keys →
                        d !! key = Some (getattr template key (VStr "")))
    [MkPyObject true "Template" "Template" {[ "name" := py_of_str "welcome" ]} None].
Proof.
  apply (templates_projected 100 None
           (returning
              (MkPyObject true "[Template]" "list" ∅
                 (Some [MkPyObject true "Template" "Template"
                          {[ "name" := py_of_str "welcome" ]} None])))
           (MkPyObject true "[Template]" "list" ∅
              (Some [MkPyObject true "Template" "Template"
                       {[ "name" := py_of_str "welcome" ]} None]))).
  - reflexivity.
  - reflexivity.
Defined.

(** X12: when the transport returns an object that is not iterable (for
    instance [None]), [get_templates] does not report an empty list: the
    [TypeError] of the loop is caught and the result is
    [{"success": False, "error": "'<type>' object is not iterable"}], after
    the one transport call and one ERROR record. *)
Theorem templates_not_iterable limit name tr result :
  tr (wa_get_templates limit name) = Returns result →
  py_iter result = None →
  run (get_templates limit name) tr
  = (Ok (failure ("'" +:+ py_type result +:+ "' object is not iterable")),
     MkWorld [wa_get_templates limit name]
       [(ERROR, "Failed to get templates: '" +:+ py_type result
                +:+ "' object is not iterable")]).
Proof.
  intros Htr Hiter. unfold_handler. rewrite Htr, Hiter. unfold_handler.
  reflexivity.
Qed.

Lemma templates_not_iterable_witness :
  run (get_templates 100 None) (returning py_None)
  = (Ok (failure "'NoneType' object is not iterable"),
     MkWorld [wa_get_templates 100 None]
       [(ERROR, "Failed to get templates: 'NoneType' object is not iterable")]).
Proof.
  apply (templates_not_iterable 100 None (returning py_None) py_None);
    reflexivity.
Defined.

(** ** The client and the registry *)

(** X13: the client is a singleton that is built at most once: after a
    call of [get_whatsapp_client] that returned a client, every later call
    returns that same client whatever the environment has become, without
    reading it, logging or changing the state; and the call itself
    registers no tool. *)
Theorem client_built_once environ environ' st client st' :
  get_whatsapp_client environ st = (Ok client, st') →
  get_whatsapp_client environ' st' = (Ok client, st') ∧
  wa_client st' = Some client ∧
  mcp_tools st' = mcp_tools st.
Proof.
  unfold get_whatsapp_client at 1.
  destruct (wa_client st) as [existing|] eqn:Hclient.
  - intros [= <- <-]. unfold get_whatsapp_client. by rewrite Hclient.
  - cbv zeta. destruct (not_ _ || not_ _); [discriminate|].
    intros [= <- <-]. by unfold get_whatsapp_client.
Qed.

Lemma client_built_once_witness :
  get_whatsapp_client ∅
    (server_logger INFO "WhatsApp client initialized"
       (MkServer (Some (MkWhatsApp "1055501234" "EAAGtoken")) [] []))
  = (Ok (MkWhatsApp "1055501234" "EAAGtoken"),
     server_logger INFO "WhatsApp client initialized"
       (MkServer (Some (MkWhatsApp "1055501234" "EAAGtoken")) [] [])) ∧
  wa_client
    (server_logger INFO "WhatsApp client initialized"
       (MkServer (Some (MkWhatsApp "1055501234" "EAAGtoken")) [] []))
  = Some (MkWhatsApp "1055501234" "EAAGtoken") ∧
  mcp_tools
    (server_logger INFO "WhatsApp client initialized"
       (MkServer (Some (MkWhatsApp "1055501234" "EAAGtoken")) [] []))
  = mcp_tools server0.
Proof.
  apply (client_built_once configured ∅ server0).
  reflexivity.
Defined.

(** X14: a call of [get_whatsapp_client] fails only when no client exists
    yet and a credential is absent from the environment or empty; the
    exception is a [ValueError] with the fixed message, and the failed call
    leaves the state as it was (no client, nothing logged), so that a later
    call reads the environment again. *)
Theorem client_failure_leaves_state environ st e st' :
  get_whatsapp_client environ st = (Raise e, st') →
  st' = st ∧ wa_client st = None ∧
  e = MkPyExc ValueError
        "Missing required environment variables: WHATSAPP_PHONE_ID and WHATSAPP_TOKEN" ∧
  (environ !! "WHATSAPP_PHONE_ID" = None ∨ environ !! "WHATSAPP_PHONE_ID" = Some "" ∨
   environ !! "WHATSAPP_TOKEN" = None ∨ environ !! "WHATSAPP_TOKEN" = Some "").
Proof.
  unfold get_whatsapp_client.
  destruct (wa_client st) as [existing|]; [discriminate|]. cbv zeta.
  destruct (not_ (getenv environ "WHATSAPP_PHONE_ID")
            || not_ (getenv environ "WHATSAPP_TOKEN")) eqn:Hnot; [|discriminate].
  intros [= <- <-]. repeat split; try done.
  apply orb_true_iff in Hnot. rewrite !not_true_iff in Hnot.
  unfold getenv in Hnot. tauto.
Qed.

Lemma client_failure_leaves_state_witness :
  server0 = server0 ∧ wa_client server0 = None ∧
  MkPyExc ValueError
    "Missing required environment variables: WHATSAPP_PHONE_ID and WHATSAPP_TOKEN"
  = MkPyExc ValueError
      "Missing required environment variables: WHATSAPP_PHONE_ID and WHATSAPP_TOKEN" ∧
  (empty_phone_id !! "WHATSAPP_PHONE_ID" = None ∨
   empty_phone_id !! "WHATSAPP_PHONE_ID" = Some "" ∨
   empty_phone_id !! "WHATSAPP_TOKEN" = None ∨
   empty_phone_id !! "WHATSAPP_TOKEN" = Some "").
Proof.
  apply (client_failure_leaves_state empty_phone_id server0).
  reflexivity.
Defined.

(** X15: [register_all_tools] adds the eighteen tools to the registry, in
    the order of the three modules (messaging, interactive, templates),
    every one bound to the client it was given, after the tools that were
    registered before, and changes nothing else of the server; the
    eighteen names are distinct and they are exactly the names of the
    tools the host can invoke. *)
Theorem register_all_tools_registry client st :
  mcp_tools (register_all_tools client st)
  = (mcp_tools st ++ ((λ name, (name, client)) <$> all_tool_names))%list ∧
  wa_client (register_all_tools client st) = wa_client st ∧
  server_log (register_all_tools client st) = server_log st ∧
  length all_tool_names = 18 ∧
  NoDup all_tool_names ∧
  ∀ name, name ∈ all_tool_names ↔ ∃ t, tool_name t = name.
Proof.
  rewrite register_all_tools_spec. cbn [mcp_tools wa_client server_log].
  repeat split; try done.
  - apply (bool_decide_unpack (NoDup all_tool_names)). vm_compute. exact I.
  - intros Hname.
    assert (Hnames : all_tool_names = tool_name <$> sample_calls) by reflexivity.
    rewrite Hnames in Hname.
    apply list_elem_of_fmap in Hname as (t & -> & _). by exists t.
  - intros (t & <-). apply tool_name_registered.
Qed.

(** ** Omitted arguments *)

(** X16: what the transport receives for an argument that the caller
    omitted.  [send_template] passes the language ["en"] when none is
    given and the empty list for parameters that are omitted or empty
    (never [None]); [send_message] passes [preview_url=False]; and
    [get_templates] asks for at most 100 templates.  Arguments that are
    given are passed as they are. *)
Theorem omitted_arguments tr :
  (∀ to name language params reply,
     calls (run (invoke (call_send_template to name language params reply)) tr).2
     = [wa_send_template to name (default "en" language) (default [] params)
          reply]) ∧
  (∀ to text header footer preview_url reply,
     calls (run (invoke (call_send_message to text header footer preview_url
                           reply)) tr).2
     = [wa_send_message to text header footer None
          (Some (default false preview_url)) reply]) ∧
  (∀ limit name,
     calls (run (invoke (call_get_templates limit name)) tr).2
     = [wa_get_templates (default 100%Z limit) name]).
Proof.
  split; [|split].
  - intros. unfold_handler. unfold params_or_empty.
    outcome_cases; by destruct params as [[|p ps]|].
  - intros. unfold_handler. by outcome_cases.
  - intros. unfold_handler. transport_cases r e E; [|done..].
    by destruct (py_iter r).
Qed.
